(** * whatsapp-agent-supabase: the chat bot adapter and the process supervisor

    A shallow embedding of [src/whatsapp/bot.js] (class [WhatsAppBot]) and of
    the entry point of the repository (class [WhatsAppAISystem] and the
    module-level start-up code), with the properties that the specification
    states about them.

    Conventions of the embedding.
    - A JavaScript method is a computation in the monad [M T], where [T] is
      the type of [this]: it reads and writes the fields of [this] and the
      process-wide [World] (timers, listener table, [process.env], the
      [global.systemRunning] flag), it lists the calls it makes on objects
      outside the class (console, chat session, message, AI agent, formatter)
      as [Event]s in order, and it ends by returning, by throwing or by
      [process.exit].
    - An awaited call on an outside object is fallible: the object carries
      the outcome of each of its methods, and a rejected promise is a
      [Thrown] outcome. What is thrown is any JavaScript value ([Exn.t]): an
      [Error] object, [null], [undefined] or something else; reading
      [error.stack] of a caught [null] or [undefined] throws a TypeError.
    - An [async] method runs as one turn of the event loop, except
      [WhatsAppBot.initialize]: it arms a timeout and registers listeners
      before it awaits, so those callbacks can run while it waits. It is
      split at its [await] ([initialize_call] is the part before it), and
      what the event loop runs meanwhile is given by the chat library
      ([Transport.initializing]). The other methods assign no field after
      their first [await] and read after it only fields that are assigned
      once, so what runs between their turns does not change what they do.
    - A callback run by the event loop has no caller: what it throws is
      recorded as [Unhandled] and goes nowhere.
    - Strings are byte strings holding the UTF-8 text of the source;
      ['@c.us'] is ASCII, so looking for it in UTF-8 bytes and in UTF-16
      code units agrees. Only the console line that prints
      [response.substring(0, 100)] counts in bytes where JavaScript counts
      in code units.
    - A value that may be [undefined] or [null] is an [option]. *)

From Stdlib Require Import String Ascii List ZArith Lia Bool.
From Stdlib Require Import DecimalString.
From stdpp Require Import base option list gmap strings.

Open Scope string_scope.
Open Scope Z_scope.

(** ** JavaScript values used by the program *)

(** Truthiness of a value that is a string, [undefined] or [null]. *)
Definition truthy (v : option string) : bool :=
  match v with
  | Some s => negb (String.eqb s "")
  | None => false
  end.

(** [a || b] where [a] is a string, [undefined] or [null] and [b] a string. *)
Definition or_else (a : option string) (b : string) : string :=
  match a with
  | Some s => if String.eqb s "" then b else s
  | None => b
  end.

(** [flag || false] where [flag] is a boolean or [undefined]. *)
Definition or_false (flag : option bool) : bool :=
  match flag with
  | Some true => true
  | _ => false
  end.

(** [s.includes(sub)]. *)
Fixpoint includes (s sub : string) : bool :=
  if String.prefix sub s then true
  else match s with
       | EmptyString => false
       | String _ rest => includes rest sub
       end.

(** The double quote character, for the template strings that print one. *)
Definition dq : string := String "034"%char EmptyString.

(** Decimal rendering of a count inside a template string. *)
Definition decimal (n : nat) : string := NilZero.string_of_uint (Nat.to_uint n).

(** [Error] objects: [new Error(message)], [TypeError], or whatever an
    outside call rejects with. *)
Module Error.
Record t := mk { name : string; message : string }.
End Error.

Definition new_Error (msg : string) : Error.t := Error.mk "Error" msg.
Definition new_TypeError (msg : string) : Error.t := Error.mk "TypeError" msg.

(** What can be thrown, and what a promise can be rejected with: any value.
    [Other] stands for a value that is neither an [Error] object nor [null]
    or [undefined] (a string, a number, a plain object), by its printed
    form. *)
Module Exn.
Inductive t : Type :=
| Null
| Undefined
| ErrorObject (e : Error.t)
| Other (printed : string).
End Exn.
Coercion Exn.ErrorObject : Error.t >-> Exn.t.

(** [v] is [null] or [undefined]. *)
Definition nullish (v : Exn.t) : bool :=
  match v with
  | Exn.Null | Exn.Undefined => true
  | _ => false
  end.

(** The TypeError of reading [property] of [v], for [v] [null] or
    [undefined]. *)
Definition cannot_read (v : Exn.t) (property : string) : Error.t :=
  new_TypeError ("Cannot read properties of "
                   +:+ match v with Exn.Null => "null" | _ => "undefined" end
                   +:+ " (reading '" +:+ property +:+ "')").

(** The outcome of a call on an object outside the program. *)
Inductive Outcome (A : Type) : Type :=
| Returned (a : A)
| Thrown (v : Exn.t).
Arguments Returned {A} a.
Arguments Thrown {A} v.

(** ** Objects of the chat library and of the collaborators *)

Module Contact.
Record t := mk { name : option string; number : string }.
End Contact.

Module Chat.
Record t := mk { sendStateTyping : Outcome unit }.
End Chat.

Module Message.
(** [id] stands for the identity of the message object: a reply is sent
    through the message it answers. *)
Record t := mk {
  id : nat;
  fromMe : bool;
  type : string;
  body : string;
  getContact : Outcome Contact.t;
  getChat : Outcome Chat.t;
  reply : string -> Outcome unit
}.
End Message.

Module UserContext.
(** [timestamp] is the instant of [new Date()], in milliseconds; its
    rendering by [toISOString] is not expanded. *)
Record t := mk { name : string; number : string; timestamp : Z }.
End UserContext.

Module AiResponse.
(** The object the AI agent resolves to. The adapter reads [response]
    only; [rest] holds the other properties, for the formatter. *)
Record t := mk { response : option string; rest : list (string * string) }.
End AiResponse.

Module Agent.
(** Modelled from the spec: the class [MultiAgentSystem] of
    [src/ai/multiagent-system.js] is not among the sources. It "accepts
    message text plus a user-context record, returns a response object",
    and GET /health reads its [isReady] flag. *)
Record t := mk {
  processMessage : string -> UserContext.t -> Outcome (option AiResponse.t);
  isReady : option bool
}.
End Agent.

Module Formatter.
(** Modelled from the spec: the class [ResponseFormatter] of
    [src/formatters/response.js] is not among the sources. It is a "pure
    function transforming an AI result object into user-facing text". *)
Record t := mk { format : option AiResponse.t -> Outcome (option string) }.
End Formatter.

Module Executor.
(** Modelled from the spec: the class [SupabaseExecutor] of
    [src/supabase/executor.js] is not among the sources. It "exposes
    connectivity test and query/command execution", and GET /health reads
    its [isConnected] flag. *)
Record t := mk { testConnection : Outcome unit; isConnected : option bool }.
End Executor.

(** What the chat library can emit on a session object. *)
Inductive ClientEvent : Type :=
| EvQr (qr : string)
| EvReady
| EvAuthenticated
| EvLoadingScreen (percent message : string)
| EvMessage (message : Message.t)
| EvDisconnected (reason : string)
| EvAuthFailure (msg : string)
| EvError (error : Exn.t).

Definition event_name (ev : ClientEvent) : string :=
  match ev with
  | EvQr _ => "qr"
  | EvReady => "ready"
  | EvAuthenticated => "authenticated"
  | EvLoadingScreen _ _ => "loading_screen"
  | EvMessage _ => "message"
  | EvDisconnected _ => "disconnected"
  | EvAuthFailure _ => "auth_failure"
  | EvError _ => "error"
  end.

(** What the event loop can run while an awaited call is pending. *)
Inductive Happening : Type :=
| Passes (dt : Z)                        (* time passes *)
| Fires (h : nat)                        (* the callback of timeout [h] runs, if it is due *)
| Emitted (c : nat) (ev : ClientEvent).  (* the library emits [ev] on session [c] *)

(** The behaviour of the chat library ([whatsapp-web.js]) on the sessions it
    has created, by session handle. [initializing c] is what happens between
    the call of [initialize] on session [c] and the moment its promise
    settles. *)
Module Transport.
Record t := mk {
  initialize : nat -> Outcome unit;
  initializing : nat -> list Happening;
  sendMessage : nat -> string -> string -> Outcome unit;
  destroy : nat -> Outcome unit
}.
End Transport.

(** ** Effects *)

Inductive Arg : Type :=
| AStr (s : string)
| AErr (v : Exn.t)                  (* a caught value printed by the console *)
| AStack (v : Exn.t)                (* [v.stack], for [v] not [null] or [undefined] *)
| ACtx (c : UserContext.t).

Inductive Event : Type :=
| ConsoleLog (args : list Arg)
| ConsoleError (args : list Arg)
| QrGenerate (qr : string)                              (* qrcode.generate(qr, {small: true}) *)
| MsgGetContact (m : nat)
| MsgGetChat (m : nat)
| MsgReply (m : nat) (text : string)
| ChatSendStateTyping
| AgentProcessMessage (text : string) (ctx : UserContext.t)
| FormatterFormat (r : option AiResponse.t)
| ClientNew (c : nat) (clientId dataPath : string)
| ClientOn (c : nat) (event : string)
| ClientInitialize (c : nat)
| ClientSendMessage (c : nat) (chatId text : string)
| ClientDestroy (c : nat)
| SetTimeout (h : nat) (ms : Z)
| ClearTimeout (h : nat)
| Construct (class : string)                            (* new ResponseFormatter(), ... *)
| ExecutorTestConnection
| DotenvConfig
| RemoveAllListeners (signal : string)
| ProcessOn (signal : string)
| AppUse (middleware : string)
| AppGet (path : string)
| AppListen (port : string)
| ProcessExit (code : Z)
| Unhandled (v : Exn.t).                                (* thrown by a callback of the event loop *)

(** The process-wide state. *)
Record World := mkWorld {
  now : Z;                           (* the clock, in milliseconds *)
  fresh : nat;                       (* next unused handle (sessions, timeouts) *)
  timers : gmap nat Z;               (* pending timeouts: handle to due time *)
  listeners : list (nat * string);   (* [on] registrations: (session, event name) *)
  web : Transport.t;                 (* the chat library *)
  env : gmap string string;          (* process.env *)
  systemRunning : bool               (* global.systemRunning *)
}.

Definition with_fresh (w : World) (n : nat) : World :=
  mkWorld (now w) n (timers w) (listeners w) (web w) (env w) (systemRunning w).
Definition with_timers (w : World) (t : gmap nat Z) : World :=
  mkWorld (now w) (fresh w) t (listeners w) (web w) (env w) (systemRunning w).
Definition with_listeners (w : World) (l : list (nat * string)) : World :=
  mkWorld (now w) (fresh w) (timers w) l (web w) (env w) (systemRunning w).
Definition with_now (w : World) (t : Z) : World :=
  mkWorld t (fresh w) (timers w) (listeners w) (web w) (env w) (systemRunning w).
Definition with_web (w : World) (t : Transport.t) : World :=
  mkWorld (now w) (fresh w) (timers w) (listeners w) t (env w) (systemRunning w).
Definition with_env (w : World) (e : gmap string string) : World :=
  mkWorld (now w) (fresh w) (timers w) (listeners w) (web w) e (systemRunning w).
Definition with_systemRunning (w : World) (b : bool) : World :=
  mkWorld (now w) (fresh w) (timers w) (listeners w) (web w) (env w) b.

(** ** The monad of methods *)

Inductive Result (A : Type) : Type :=
| Val (a : A)              (* the method returned [a] *)
| Err (v : Exn.t)          (* it threw, or its promise rejected *)
| Exit (code : Z).         (* it ended the process *)
Arguments Val {A} a.
Arguments Err {A} v.
Arguments Exit {A} code.

Record Run (T A : Type) : Type := mkRun {
  result : Result A;
  this' : T;
  world' : World;
  effects : list Event
}.
Arguments mkRun {T A}.
Arguments result {T A}.
Arguments this' {T A}.
Arguments world' {T A}.
Arguments effects {T A}.

Definition M (T A : Type) : Type := T -> World -> Run T A.

Definition ret {T A} (a : A) : M T A := fun t w => mkRun (Val a) t w [].

Definition bind {T A B} (m : M T A) (k : A -> M T B) : M T B :=
  fun t w =>
    match m t w with
    | mkRun (Val a) t1 w1 evs1 =>
        match k a t1 w1 with
        | mkRun r t2 w2 evs2 => mkRun r t2 w2 (evs1 ++ evs2)
        end
    | mkRun (Err e) t1 w1 evs1 => mkRun (Err e) t1 w1 evs1
    | mkRun (Exit c) t1 w1 evs1 => mkRun (Exit c) t1 w1 evs1
    end.

Declare Scope js_scope.
Delimit Scope js_scope with js.
Notation "x <- m ;; k" := (bind m (fun x => k))
  (at level 100, m at next level, right associativity) : js_scope.
Notation "m ;; k" := (bind m (fun _ => k))
  (at level 100, right associativity) : js_scope.
Open Scope js_scope.

Definition throw {T A} (v : Exn.t) : M T A := fun t w => mkRun (Err v) t w [].

(** [try { m } catch (error) { h error }]. [process.exit] is not caught. *)
Definition try_catch {T A} (m : M T A) (h : Exn.t -> M T A) : M T A :=
  fun t w =>
    match m t w with
    | mkRun (Err e) t1 w1 evs1 =>
        match h e t1 w1 with
        | mkRun r t2 w2 evs2 => mkRun r t2 w2 (evs1 ++ evs2)
        end
    | r => r
    end.

Definition get_this {T} : M T T := fun t w => mkRun (Val t) t w [].
Definition set_this {T} (t : T) : M T unit := fun _ w => mkRun (Val tt) t w [].
Definition get_world {T} : M T World := fun t w => mkRun (Val w) t w [].
Definition set_world {T} (w : World) : M T unit := fun t _ => mkRun (Val tt) t w [].
Definition emit {T} (e : Event) : M T unit := fun t w => mkRun (Val tt) t w [e].

(** The promise of a call settles: the call returns or throws. *)
Definition settle {T A} (o : Outcome A) : M T A :=
  match o with
  | Returned a => ret a
  | Thrown v => throw v
  end.

(** A call on an outside object: the call is made, then it returns or throws. *)
Definition call {T A} (e : Event) (o : Outcome A) : M T A :=
  emit e ;;
  settle o.

(** [error.stack], for a caught [error]: reading a property of [null] or
    [undefined] throws a TypeError. *)
Definition error_stack {T} (error : Exn.t) : M T Arg :=
  if nullish error then throw (cannot_read error "stack")
  else ret (AStack error).

(** A callback that the event loop runs (a timeout, a listener called by
    the library, the promise of an [async] listener): it has no caller, so
    what it throws is caught by nobody. The value is recorded; what the
    runtime does with it (a warning, or the end of the process, by its
    version and flags) is not part of the program. *)
Definition detached {T A} (m : M T A) : M T unit :=
  fun t w =>
    match m t w with
    | mkRun (Val _) t1 w1 evs1 => mkRun (Val tt) t1 w1 evs1
    | mkRun (Err v) t1 w1 evs1 => mkRun (Val tt) t1 w1 (evs1 ++ [Unhandled v])
    | mkRun (Exit c) t1 w1 evs1 => mkRun (Exit c) t1 w1 evs1
    end.

Definition console_log {T} (args : list Arg) : M T unit := emit (ConsoleLog args).
Definition console_error {T} (args : list Arg) : M T unit := emit (ConsoleError args).

(** [process.exit(code)]. *)
Definition process_exit {T A} (code : Z) : M T A :=
  fun t w => mkRun (Exit code) t w [ProcessExit code].

(** [setTimeout(callback, ms)]: the program has one callback, see
    [WhatsAppBot.onInitTimeout]. *)
Definition setTimeout {T} (ms : Z) : M T nat :=
  w <- get_world ;;
  let h := fresh w in
  set_world (with_timers (with_fresh w (S h)) (<[h := now w + ms]> (timers w))) ;;
  emit (SetTimeout h ms) ;;
  ret h.

Definition clearTimeout {T} (h : nat) : M T unit :=
  w <- get_world ;;
  set_world (with_timers w (delete h (timers w))) ;;
  emit (ClearTimeout h).

(** A method of an object held in a field of [this]. *)
Definition on_field {T U A} (get : T -> U) (set : U -> T -> T) (m : M U A) : M T A :=
  fun t w =>
    match m (get t) w with
    | mkRun r u w1 evs => mkRun r (set u t) w1 evs
    end.

(** ** [src/whatsapp/bot.js]: class [WhatsAppBot] *)

Module WhatsAppBot.

Record t := mk {
  aiAgent : option Agent.t;
  responseFormatter : option Formatter.t;
  client : option nat;               (* handle of the session object, or [null] *)
  isReady : bool;
  sessionPath : string;
  clientId : string;
  initTimeout : option nat           (* handle of the fallback timeout, or [null] *)
}.

Definition constructor (aiAgent : option Agent.t)
    (responseFormatter : option Formatter.t) (w : World) : t :=
  mk aiAgent responseFormatter None false
     (or_else (env w !! "WHATSAPP_SESSION_PATH") "./whatsapp-session")
     (or_else (env w !! "WHATSAPP_CLIENT_ID") "whatsapp-ai-bot")
     None.

Definition set_client (c : option nat) : M t unit :=
  b <- get_this ;;
  set_this (mk (aiAgent b) (responseFormatter b) c (isReady b)
               (sessionPath b) (clientId b) (initTimeout b)).

Definition set_isReady (r : bool) : M t unit :=
  b <- get_this ;;
  set_this (mk (aiAgent b) (responseFormatter b) (client b) r
               (sessionPath b) (clientId b) (initTimeout b)).

Definition set_initTimeout (h : option nat) : M t unit :=
  b <- get_this ;;
  set_this (mk (aiAgent b) (responseFormatter b) (client b) (isReady b)
               (sessionPath b) (clientId b) h).

(** The fixed texts sent to the user. *)
Definition unsupported_type_notice : string :=
  "🤖 Desculpe, eu só processo mensagens de texto no momento.".
Definition fallback_apology : string :=
  "🤖 Desculpe, não consegui processar sua mensagem no momento.".
Definition handler_error_apology : string :=
  "🤖 Desculpe, ocorreu um erro ao processar sua mensagem. Tente novamente.".
Definition ai_unavailable : string :=
  "🤖 Sistema de IA não está disponível. Tente novamente em alguns instantes.".
Definition formatting_error : string :=
  "🤖 Erro na formatação da resposta.".
Definition ai_apology : string :=
  "🤖 Desculpe, não consegui processar sua solicitação. Verifique se sua mensagem está clara e tente novamente.".

(** [this.client.<method>]: reading a property of [null] throws. *)
Definition this_client (method : string) : M t nat :=
  b <- get_this ;;
  match client b with
  | Some c => ret c
  | None =>
      throw (new_TypeError
               ("Cannot read properties of null (reading '" +:+ method +:+ "')"))
  end.

(** [new Client({authStrategy: new LocalAuth({clientId, dataPath}), ...})]:
    the library creates the session object; nothing runs on it yet. *)
Definition new_Client (clientId dataPath : string) : M t nat :=
  w <- get_world ;;
  let c := fresh w in
  set_world (with_fresh w (S c)) ;;
  emit (ClientNew c clientId dataPath) ;;
  ret c.

(** [this.client.on(event, callback)]; the callback registered for an
    event name is [handler] below. *)
Definition client_on (event : string) : M t unit :=
  c <- this_client "on" ;;
  w <- get_world ;;
  set_world (with_listeners w (listeners w ++ [(c, event)])) ;;
  emit (ClientOn c event).

Definition registered (c : nat) (event : string) (r : nat * string) : bool :=
  Nat.eqb (fst r) c && String.eqb (snd r) event.

(** [this.client.listenerCount(event)]. *)
Definition client_listenerCount (event : string) : M t nat :=
  c <- this_client "listenerCount" ;;
  w <- get_world ;;
  ret (length (List.filter (registered c event) (listeners w))).

Definition forceReady : M t unit :=
  set_isReady true ;;
  console_log [AStr "✅ WhatsApp Bot conectado e pronto! (forçado)"] ;;
  console_log [AStr "📱 WhatsApp Web conectado com sucesso!"] ;;
  console_log [AStr "🔔 Bot está aguardando mensagens..."] ;;
  console_log [AStr "🧪 Testando listeners de eventos..."] ;;
  n <- client_listenerCount "message" ;;
  console_log [AStr ("📊 Eventos 'message': " +:+ decimal n)] ;;
  n <- client_listenerCount "ready" ;;
  console_log [AStr ("📊 Eventos 'ready': " +:+ decimal n)] ;;
  console_log [AStr "⏳ Envie uma mensagem para testar..."].

(** The callback given to [setTimeout] in [initialize]. *)
Definition onInitTimeout : M t unit :=
  b <- get_this ;;
  if negb (isReady b) then
    console_log [AStr "⚠️ Timeout atingido, forçando estado ready..."] ;;
    forceReady
  else ret tt.

Definition processMessageWithAI (messageText : string) (contact : Contact.t)
    : M t (option string) :=
  try_catch
    (console_log [AStr "🧠 Iniciando processamento com IA..."] ;;
     w <- get_world ;;
     let userContext :=
       UserContext.mk (or_else (Contact.name contact) "Usuário")
                      (Contact.number contact) (now w) in
     console_log [AStr "👤 Contexto do usuário:"; ACtx userContext] ;;
     b <- get_this ;;
     match aiAgent b with
     | None =>
         console_error [AStr "❌ aiAgent não está inicializado!"] ;;
         ret (Some ai_unavailable)
     | Some agent =>
         console_log [AStr "🔄 Chamando aiAgent.processMessage..."] ;;
         aiResponse <- call (AgentProcessMessage messageText userContext)
                            (Agent.processMessage agent messageText userContext) ;;
         console_log [AStr "✅ Resposta da IA recebida:";
                      AStr (match aiResponse with
                            | Some _ => "Sucesso"
                            | None => "Vazia"
                            end)] ;;
         b <- get_this ;;
         match responseFormatter b with
         | None =>
             console_error [AStr "❌ responseFormatter não está inicializado!"] ;;
             ret (Some (or_else (r ← aiResponse; AiResponse.response r)
                                formatting_error))
         | Some formatter =>
             console_log [AStr "🎨 Formatando resposta..."] ;;
             formattedResponse <- call (FormatterFormat aiResponse)
                                       (Formatter.format formatter aiResponse) ;;
             console_log [AStr "✅ Resposta formatada:";
                          AStr (if truthy formattedResponse
                                then "Sucesso" else "Vazia")] ;;
             ret formattedResponse
         end
     end)
    (fun error =>
       console_error [AStr "❌ Erro no processamento IA:"; AErr error] ;;
       stack <- error_stack error ;;
       console_error [AStr "Stack trace completo:"; stack] ;;
       ret (Some ai_apology)).

Definition handleMessage (message : Message.t) : M t unit :=
  let m := Message.id message in
  try_catch
    (console_log [AStr "📨 PROCESSANDO MENSAGEM..."] ;;
     if Message.fromMe message then
       console_log [AStr "🔄 Ignorando mensagem própria"]
     else
       contact <- call (MsgGetContact m) (Message.getContact message) ;;
       chat <- call (MsgGetChat m) (Message.getChat message) ;;
       let who := or_else (Contact.name contact) (Contact.number contact) in
       console_log [AStr ("📨 Mensagem recebida de " +:+ who +:+ ": " +:+ dq
                            +:+ Message.body message +:+ dq)] ;;
       console_log [AStr ("📋 Tipo da mensagem: " +:+ Message.type message)] ;;
       if negb (String.eqb (Message.type message) "chat") then
         console_log [AStr ("⚠️ Tipo de mensagem não suportado: "
                              +:+ Message.type message)] ;;
         call (MsgReply m unsupported_type_notice)
              (Message.reply message unsupported_type_notice)
       else
         console_log [AStr "⏳ Iniciando processamento da mensagem..."] ;;
         call ChatSendStateTyping (Chat.sendStateTyping chat) ;;
         console_log [AStr "🧠 Enviando para IA..."] ;;
         response <- processMessageWithAI (Message.body message) contact ;;
         if truthy response then
           let text := or_else response "" in
           console_log [AStr ("📤 Enviando resposta: " +:+ dq
                                +:+ substring 0 100 text +:+ "..." +:+ dq)] ;;
           call (MsgReply m text) (Message.reply message text) ;;
           console_log [AStr ("✅ Resposta enviada com sucesso para " +:+ who)]
         else
           console_log [AStr "⚠️ Nenhuma resposta gerada pela IA"] ;;
           call (MsgReply m fallback_apology)
                (Message.reply message fallback_apology))
    (fun error =>
       console_error [AStr "❌ Erro ao processar mensagem:"; AErr error] ;;
       stack <- error_stack error ;;
       console_error [AStr "Stack trace:"; stack] ;;
       try_catch
         (call (MsgReply m handler_error_apology)
               (Message.reply message handler_error_apology))
         (fun replyError =>
            console_error [AStr "❌ Erro ao enviar mensagem de erro:";
                           AErr replyError])).

Definition sendMessage (number message : string) : M t bool :=
  try_catch
    (b <- get_this ;;
     (if negb (isReady b)
      then throw (new_Error "WhatsApp Bot não está pronto")
      else ret tt) ;;
     let chatId :=
       if includes number "@c.us" then number else number +:+ "@c.us" in
     c <- this_client "sendMessage" ;;
     w <- get_world ;;
     call (ClientSendMessage c chatId message)
          (Transport.sendMessage (web w) c chatId message) ;;
     ret true)
    (fun error =>
       console_error [AStr "❌ Erro ao enviar mensagem:"; AErr error] ;;
       ret false).

Definition destroy : M t unit :=
  b <- get_this ;;
  (match initTimeout b with
   | Some h => clearTimeout h
   | None => ret tt
   end) ;;
  b <- get_this ;;
  match client b with
  | Some c =>
      w <- get_world ;;
      call (ClientDestroy c) (Transport.destroy (web w) c) ;;
      console_log [AStr "🛑 WhatsApp Bot encerrado"]
  | None => ret tt
  end.

Module Status.
Record t := mk { ready : bool; clientId : string; sessionPath : string }.
End Status.

Definition getStatus : M t Status.t :=
  b <- get_this ;;
  ret (Status.mk (isReady b) (clientId b) (sessionPath b)).

(** The callbacks of [setupEventHandlers], by the event they are
    registered for. *)
Definition handler (ev : ClientEvent) : M t unit :=
  match ev with
  | EvQr qr =>
      console_log [AStr "📱 Escaneie o QR Code abaixo com seu WhatsApp:"] ;;
      emit (QrGenerate qr)
  | EvReady =>
      b <- get_this ;;
      (match initTimeout b with
       | Some h => clearTimeout h ;; set_initTimeout None
       | None => ret tt
       end) ;;
      console_log [AStr "✅ WhatsApp Bot conectado e pronto!"] ;;
      console_log [AStr "📱 WhatsApp Web conectado com sucesso!"] ;;
      console_log [AStr "🔔 Bot está aguardando mensagens..."] ;;
      set_isReady true ;;
      console_log [AStr "🧪 Testando listeners de eventos..."] ;;
      n <- client_listenerCount "message" ;;
      console_log [AStr ("📊 Eventos 'message': " +:+ decimal n)] ;;
      n <- client_listenerCount "ready" ;;
      console_log [AStr ("📊 Eventos 'ready': " +:+ decimal n)] ;;
      console_log [AStr "⏳ Envie uma mensagem para testar..."]
  | EvAuthenticated =>
      console_log [AStr "🔐 WhatsApp autenticado com sucesso!"]
  | EvLoadingScreen percent message =>
      console_log [AStr ("⏳ Carregando WhatsApp: " +:+ percent +:+ "% - "
                           +:+ message)]
  | EvMessage message =>
      console_log [AStr "🔔 EVENTO MESSAGE DISPARADO!"] ;;
      handleMessage message
  | EvDisconnected reason =>
      console_log [AStr "❌ WhatsApp desconectado:"; AStr reason] ;;
      set_isReady false
  | EvAuthFailure msg =>
      console_error [AStr "❌ Falha na autenticação:"; AStr msg]
  | EvError error =>
      console_error [AStr "❌ Erro no cliente WhatsApp:"; AErr error]
  end.

Definition setupEventHandlers : M t unit :=
  client_on "qr" ;;
  client_on "ready" ;;
  client_on "authenticated" ;;
  client_on "loading_screen" ;;
  client_on "message" ;;
  client_on "disconnected" ;;
  client_on "auth_failure" ;;
  client_on "error".

(** The listener registered for an event. The one for 'message' is an
    [async] function: [emit] gets its promise back and goes on to the next
    listener; nothing handles a rejection of that promise. *)
Definition listener (ev : ClientEvent) : M t unit :=
  match ev with
  | EvMessage _ => detached (handler ev)
  | _ => handler ev
  end.

(** [emit] of the session object: the listeners registered for the event
    run in registration order. *)
Fixpoint call_listeners (ls : list (nat * string)) (c : nat) (ev : ClientEvent)
    : M t unit :=
  match ls with
  | [] => ret tt
  | r :: rest =>
      (if registered c (event_name ev) r then listener ev else ret tt) ;;
      call_listeners rest c ev
  end.

Definition emits (c : nat) (ev : ClientEvent) : M t unit :=
  w <- get_world ;;
  call_listeners (listeners w) c ev.

(** A due timeout leaves the timer table and its callback runs. *)
Definition fires (h : nat) : M t unit :=
  w <- get_world ;;
  set_world (with_timers w (delete h (timers w))) ;;
  onInitTimeout.

(** The timeout [h] is pending and its time has come. *)
Definition due (h : nat) (w : World) : bool :=
  match timers w !! h with
  | Some time => time <=? now w
  | None => false
  end.

(** One happening while a call is pending. Time does not run backwards and
    only a due timeout fires; the callbacks have no caller. *)
Definition happen (x : Happening) : M t unit :=
  match x with
  | Passes dt =>
      if 0 <=? dt then w <- get_world ;; set_world (with_now w (now w + dt))
      else ret tt
  | Fires h =>
      w <- get_world ;;
      if due h w then detached (fires h) else ret tt
  | Emitted c ev => detached (emits c ev)
  end.

Fixpoint happenings (xs : list Happening) : M t unit :=
  match xs with
  | [] => ret tt
  | x :: rest => happen x ;; happenings rest
  end.

(** [initialize] up to its [await]: lines 16 to 59, with
    [client.initialize()] called and its promise pending. The value is the
    session the call was made on. *)
Definition initialize_call : M t nat :=
  console_log [AStr "📱 Inicializando WhatsApp Bot..."] ;;
  b <- get_this ;;
  (match initTimeout b with
   | Some h => clearTimeout h
   | None => ret tt
   end) ;;
  b <- get_this ;;
  c <- new_Client (clientId b) (sessionPath b) ;;
  set_client (Some c) ;;
  setupEventHandlers ;;
  h <- setTimeout 45000 ;;
  set_initTimeout (Some h) ;;
  c <- this_client "initialize" ;;
  emit (ClientInitialize c) ;;
  ret c.

(** [initialize]: after the call, the event loop runs what happens while
    the promise is pending (the listeners and the timeout are in place by
    then); when the promise settles, [initialize] returns or throws what
    the call threw. *)
Definition initialize : M t unit :=
  c <- initialize_call ;;
  w <- get_world ;;
  happenings (Transport.initializing (web w) c) ;;
  settle (Transport.initialize (web w) c).

End WhatsAppBot.

(** ** The event loop around a [WhatsAppBot]

    What can happen to a bot once it is constructed, one turn of the event
    loop at a time: one of the methods that are called from outside the
    class ([initialize], [sendMessage], [destroy], [getStatus]) is called,
    the fallback timeout fires, the chat library emits an event on a session
    object, time passes. [forceReady], [setupEventHandlers], [handleMessage]
    and [processMessageWithAI] are only called by the class itself, from the
    timeout, from [initialize] and from the 'message' callback.

    The turn of [initialize] ends where it awaits ([initialize_call]): the
    timeout and the events that come while its promise is pending are turns
    of their own, and the settling of the promise changes nothing in the bot
    or the world. The other methods assign no field after their first
    [await], so each of them is taken as one turn. *)

Module Lifecycle.
Import WhatsAppBot.

Inductive Label : Type :=
| CallInitialize
| CallSendMessage (number message : string)
| CallDestroy
| CallGetStatus
| TimeoutFires (h : nat)
| Emits (c : nat) (ev : ClientEvent)
| TimePasses (dt : Z)
| LibraryChanges (lib : Transport.t).

Definition enabled (l : Label) (w : World) : bool :=
  match l with
  | TimeoutFires h => due h w
  | TimePasses dt => 0 <=? dt
  | _ => true
  end.

Definition action (l : Label) : M t unit :=
  match l with
  | CallInitialize => _ <- initialize_call ;; ret tt
  | CallSendMessage number message => _ <- sendMessage number message ;; ret tt
  | CallDestroy => destroy
  | CallGetStatus => _ <- getStatus ;; ret tt
  | TimeoutFires h => fires h
  | Emits c ev => emits c ev
  | TimePasses dt => w <- get_world ;; set_world (with_now w (now w + dt))
  | LibraryChanges lib => w <- get_world ;; set_world (with_web w lib)
  end.

(** The bot and the world after a happening, whether it returned or threw. *)
Definition after (l : Label) (b : t) (w : World) : t * World :=
  (this' (action l b w), world' (action l b w)).


Inductive reachable : t -> World -> Prop :=
| reachable_new agent formatter w :
    timers w = ∅ -> listeners w = [] ->
    reachable (constructor agent formatter w) w
| reachable_step l b w :
    reachable b w -> enabled l w = true ->
    reachable (after l b w).1 (after l b w).2.

End Lifecycle.

(** ** The entry point: class [WhatsAppAISystem] and the module-level code *)

(** What the entry point [require]s and does not define itself. *)
Module Deps.
Record t := mk {
  new_ResponseFormatter : Outcome Formatter.t;
  new_SupabaseExecutor : Outcome Executor.t;
  new_MultiAgentSystem : Executor.t -> Outcome Agent.t;
  app_listen : string -> Outcome unit;        (* express: app.listen(port, ...) *)
  dotenv_file : gmap string string            (* the variables of the .env file *)
}.
End Deps.

Module Health.
Record t := mk { status : string; whatsapp : bool; supabase : bool; ai : bool }.
End Health.

Module Root.
Record t := mk { status : string; message : string; timestamp : Z }.
End Root.

Inductive Body : Type :=
| RootBody (b : Root.t)
| HealthBody (b : Health.t).

Module WhatsAppAISystem.

Record t := mk {
  port : string;
  whatsappBot : option WhatsAppBot.t;
  aiAgent : option Agent.t;
  supabaseExecutor : option Executor.t;
  responseFormatter : option Formatter.t
}.

Definition set_whatsappBot (b : option WhatsAppBot.t) : M t unit :=
  s <- get_this ;;
  set_this (mk (port s) b (aiAgent s) (supabaseExecutor s) (responseFormatter s)).
Definition set_aiAgent (a : option Agent.t) : M t unit :=
  s <- get_this ;;
  set_this (mk (port s) (whatsappBot s) a (supabaseExecutor s) (responseFormatter s)).
Definition set_supabaseExecutor (e : option Executor.t) : M t unit :=
  s <- get_this ;;
  set_this (mk (port s) (whatsappBot s) (aiAgent s) e (responseFormatter s)).
Definition set_responseFormatter (f : option Formatter.t) : M t unit :=
  s <- get_this ;;
  set_this (mk (port s) (whatsappBot s) (aiAgent s) (supabaseExecutor s) f).

Definition set_systemRunning {T} (v : bool) : M T unit :=
  w <- get_world ;;
  set_world (with_systemRunning w v).

(** [this.whatsappBot.<method>(...)]. *)
Definition this_whatsappBot {A} (method : string) (m : M WhatsAppBot.t A) : M t A :=
  s <- get_this ;;
  match whatsappBot s with
  | Some b => on_field (fun _ => b) (fun b' s => mk (port s) (Some b') (aiAgent s)
                                        (supabaseExecutor s) (responseFormatter s)) m
  | None =>
      throw (new_TypeError
               ("Cannot read properties of null (reading '" +:+ method +:+ "')"))
  end.

Definition setupMiddleware : M t unit :=
  emit (AppUse "express.json") ;;
  emit (AppUse "express.urlencoded").

(** The callback of [app.get('/', ...)]. *)
Definition get_root : M t Body :=
  w <- get_world ;;
  ret (RootBody (Root.mk "running" "WhatsApp + IA + Supabase System" (now w))).

(** The callback of [app.get('/health', ...)]. *)
Definition get_health : M t Body :=
  s <- get_this ;;
  ret (HealthBody
         (Health.mk "healthy"
            (or_false (b ← whatsappBot s; Some (WhatsAppBot.isReady b)))
            (or_false (e ← supabaseExecutor s; Executor.isConnected e))
            (or_false (a ← aiAgent s; Agent.isReady a)))).

Definition setupRoutes : M t unit :=
  emit (AppGet "/") ;;
  emit (AppGet "/health").

(** A GET request, answered by the callback registered for its path;
    [None] when no route is registered for it. Paths are compared as
    written. *)
Definition on_get (path : string) : M t (option Body) :=
  if String.eqb path "/" then b <- get_root ;; ret (Some b)
  else if String.eqb path "/health" then b <- get_health ;; ret (Some b)
  else ret None.

(** [new WhatsAppAISystem()], as a computation that fills in [this]. *)
Definition constructor : M t unit :=
  w <- get_world ;;
  set_this (mk (or_else (env w !! "PORT") "8080") None None None None) ;;
  setupMiddleware ;;
  setupRoutes.

Definition required : list string := ["OPENAI_API_KEY"; "SUPABASE_URL"; "SUPABASE_KEY"].

(** The body of the [try] block of [initialize]. *)
Definition initialize_body (deps : Deps.t) : M t unit :=
  console_log [AStr "🚀 Inicializando sistema WhatsApp + IA + Supabase..."] ;;
  console_log [AStr "📋 Verificando variáveis de ambiente..."] ;;
  w <- get_world ;;
  let missing := List.filter (fun v => negb (truthy (env w !! v))) required in
  (if (0 <? length missing)%nat
   then throw (new_Error ("Variáveis obrigatórias não configuradas: "
                            +:+ String.concat ", " missing))
   else ret tt) ;;
  console_log [AStr "✅ Variáveis de ambiente OK"] ;;
  console_log [AStr "🔧 Inicializando componentes..."] ;;
  f <- call (Construct "ResponseFormatter") (Deps.new_ResponseFormatter deps) ;;
  set_responseFormatter (Some f) ;;
  console_log [AStr "✅ ResponseFormatter inicializado"] ;;
  e <- call (Construct "SupabaseExecutor") (Deps.new_SupabaseExecutor deps) ;;
  set_supabaseExecutor (Some e) ;;
  console_log [AStr "✅ SupabaseExecutor inicializado"] ;;
  a <- call (Construct "MultiAgentSystem") (Deps.new_MultiAgentSystem deps e) ;;
  set_aiAgent (Some a) ;;
  console_log [AStr "✅ MultiAgentSystem inicializado"] ;;
  s <- get_this ;;
  w <- get_world ;;
  set_whatsappBot
    (Some (WhatsAppBot.constructor (aiAgent s) (responseFormatter s) w)) ;;
  console_log [AStr "✅ WhatsAppBot inicializado"] ;;
  console_log [AStr "🔗 Testando conexão com Supabase..."] ;;
  call ExecutorTestConnection (Executor.testConnection e) ;;
  console_log [AStr "✅ Conexão com Supabase estabelecida"] ;;
  console_log [AStr "📱 Inicializando WhatsApp Bot..."] ;;
  this_whatsappBot "initialize" WhatsAppBot.initialize ;;
  console_log [AStr "✅ WhatsApp Bot inicializado"] ;;
  s <- get_this ;;
  call (AppListen (port s)) (Deps.app_listen deps (port s)).

(** The callback given to [app.listen]: the server calls it once it
    listens, in a turn of its own. *)
Definition on_listening : M t unit :=
  s <- get_this ;;
  console_log [AStr ("🌐 Servidor rodando na porta " +:+ port s)] ;;
  console_log [AStr "📱 Sistema pronto para receber mensagens!"] ;;
  console_log [AStr ("🔗 Status: http://localhost:" +:+ port s +:+ "/health")].

Definition initialize (deps : Deps.t) : M t unit :=
  try_catch
    (initialize_body deps)
    (fun error =>
       console_error [AStr "❌ Erro ao inicializar sistema:"; AErr error] ;;
       stack <- error_stack error ;;
       console_error [AStr "Stack trace:"; stack] ;;
       set_systemRunning false ;;
       process_exit 1).

Definition shutdown : M t unit :=
  console_log [AStr "🛑 Encerrando sistema..."] ;;
  try_catch
    (s <- get_this ;;
     (match whatsappBot s with
      | Some _ =>
          console_log [AStr "📱 Encerrando WhatsApp Bot..."] ;;
          this_whatsappBot "destroy" WhatsAppBot.destroy
      | None => ret tt
      end) ;;
     set_systemRunning false ;;
     console_log [AStr "✅ Sistema encerrado com sucesso"])
    (fun error =>
       console_error [AStr "❌ Erro ao encerrar sistema:"; AErr error]) ;;
  process_exit 0.

(** [dotenv.config()]: the variables of the .env file are added to
    [process.env]; a variable that is already set keeps its value. *)
Definition dotenv_config {T} (deps : Deps.t) : M T unit :=
  emit DotenvConfig ;;
  w <- get_world ;;
  set_world (with_env w (env w ∪ Deps.dotenv_file deps)).

(** The module-level code, run when the entry point is loaded. [this] is
    the module's [system] constant; the value it starts with is
    overwritten by the constructor. *)
Definition main (deps : Deps.t) : M t unit :=
  dotenv_config deps ;;
  w <- get_world ;;
  (if systemRunning w
   then console_log [AStr "⚠️ Sistema já está rodando!"] ;; process_exit 0
   else ret tt) ;;
  set_systemRunning true ;;
  emit (RemoveAllListeners "SIGINT") ;;
  emit (RemoveAllListeners "SIGTERM") ;;
  constructor ;;
  emit (ProcessOn "SIGINT") ;;
  emit (ProcessOn "SIGTERM") ;;
  try_catch (initialize deps) (fun error => console_error [AErr error]).

(** SIGINT or SIGTERM arrives: the handler registered by [main] runs. A
    signal that arrives while [initialize] waits ends the process before
    [initialize] goes on; the runs of [initialize] below are those that no
    signal cuts short. *)
Definition on_signal : M t unit := shutdown.

End WhatsAppAISystem.

(** ** What a run did, read off its effects *)

(** The replies sent, as (message, text), in order. *)
Definition replies (evs : list Event) : list (nat * string) :=
  omap (fun e => match e with MsgReply m text => Some (m, text) | _ => None end) evs.

(** The calls of [aiAgent.processMessage], in order. *)
Definition ai_calls (evs : list Event) : list (string * UserContext.t) :=
  omap (fun e => match e with
                 | AgentProcessMessage text ctx => Some (text, ctx)
                 | _ => None
                 end) evs.

(** The calls of [client.sendMessage], as (session, chat id, text). *)
Definition transport_sends (evs : list Event) : list (nat * string * string) :=
  omap (fun e => match e with
                 | ClientSendMessage c chatId text => Some (c, chatId, text)
                 | _ => None
                 end) evs.

(** The event names given to [client.on], in order. *)
Definition registrations (evs : list Event) : list (nat * string) :=
  omap (fun e => match e with ClientOn c name => Some (c, name) | _ => None end) evs.

(** The timeouts armed, as (handle, delay). *)
Definition timeouts_armed (evs : list Event) : list (nat * Z) :=
  omap (fun e => match e with SetTimeout h ms => Some (h, ms) | _ => None end) evs.

(** Console lines and nothing else. *)
Definition is_console (e : Event) : bool :=
  match e with
  | ConsoleLog _ | ConsoleError _ => true
  | _ => false
  end.

(** ** The properties, as predicates *)

(** What [handleMessage] sends for the value [v] of [processMessageWithAI]:
    the text when there is one, the fallback apology otherwise. *)
Definition answer (v : option string) : string :=
  if truthy v then or_else v "" else WhatsAppBot.fallback_apology.

(** The user context built for a contact at the current instant. *)
Definition user_context (contact : Contact.t) (w : World) : UserContext.t :=
  UserContext.mk (or_else (Contact.name contact) "Usuário")
                 (Contact.number contact) (now w).

(** [sub] occurs in [s]. *)
Definition contains (s sub : string) : Prop :=
  exists before after, s = before +:+ sub +:+ after.




(** [processMessageWithAI] was entered: its first console line was
    printed. *)
Definition ai_path_entered (evs : list Event) : Prop :=
  In (ConsoleLog [AStr "🧠 Iniciando processamento com IA..."]) evs.

(** The contact lookup throws [v], or it returns and the chat lookup throws
    [v]. *)
Definition lookup_throws (message : Message.t) (v : Exn.t) : Prop :=
  Message.getContact message = Thrown v \/
  (exists contact, Message.getContact message = Returned contact /\
                   Message.getChat message = Thrown v).

(** A lookup throws [v], or both return and the typing indicator throws
    [v]: the first of the three calls made before the AI path that fails,
    fails with [v]. *)
Definition preparation_throws (message : Message.t) (v : Exn.t) : Prop :=
  lookup_throws message v \/
  (exists contact chat, Message.getContact message = Returned contact /\
                        Message.getChat message = Returned chat /\
                        Chat.sendStateTyping chat = Thrown v).

(** A call that [handleMessage] makes before its first reply throws [v]: a
    lookup, or, for a text message, the typing indicator. *)
Definition throws_before_reply (message : Message.t) (v : Exn.t) : Prop :=
  lookup_throws message v \/
  (Message.type message = "chat" /\
   exists contact chat, Message.getContact message = Returned contact /\
                        Message.getChat message = Returned chat /\
                        Chat.sendStateTyping chat = Thrown v).

(** None of the calls that [handleMessage] makes on the message and on its
    chat rejects with [null] or [undefined]. *)
Definition no_nullish_rejection (message : Message.t) : Prop :=
  (forall v, Message.getContact message = Thrown v -> nullish v = false) /\
  (forall v, Message.getChat message = Thrown v -> nullish v = false) /\
  (forall chat v, Message.getChat message = Returned chat ->
                  Chat.sendStateTyping chat = Thrown v -> nullish v = false) /\
  (forall text v, Message.reply message text = Thrown v -> nullish v = false).

(** [m], started where [P] holds, ends where [Q] holds, however it ends. *)
Definition post {T A} (P : T -> World -> Prop) (m : M T A)
    (Q : T -> World -> Prop) : Prop :=
  forall t w, P t w -> Q (this' (m t w)) (world' (m t w)).

(** The invariant of the event loop: before the first [initialize] nothing
    is armed or registered and the flag is down; the only timeout that can be
    pending is the one [initTimeout] refers to; the current session has its
    'ready' and 'disconnected' callbacks. *)
Definition inv (b : WhatsAppBot.t) (w : World) : Prop :=
  (WhatsAppBot.client b = None ->
     WhatsAppBot.isReady b = false /\ timers w = ∅ /\ listeners w = []) /\
  (forall h, is_Some (timers w !! h) -> WhatsAppBot.initTimeout b = Some h) /\
  (forall c, WhatsAppBot.client b = Some c ->
     In (c, "ready") (listeners w) /\ In (c, "disconnected") (listeners w)).

Definition session_of (c : nat) (b : WhatsAppBot.t) (w : World) : Prop :=
  inv b w /\ WhatsAppBot.client b = Some c.

(** The flag is up and no timeout is pending. *)
Definition settled (b : WhatsAppBot.t) (w : World) : Prop :=
  WhatsAppBot.isReady b = true /\ WhatsAppBot.initTimeout b = None /\ timers w = ∅.

(** A required variable is unset (or empty) in [process.env]. *)
Definition unset (w : World) (v : string) : Prop := truthy (env w !! v) = false.

(** Something goes wrong while [WhatsAppAISystem.initialize] runs: a required
    variable is missing, or one of the calls it makes throws. *)
Definition startup_fails (deps : Deps.t) (s : WhatsAppAISystem.t) (w : World) : Prop :=
  (exists v, In v WhatsAppAISystem.required /\ unset w v) \/
  (exists e, Deps.new_ResponseFormatter deps = Thrown e) \/
  (exists e, Deps.new_SupabaseExecutor deps = Thrown e) \/
  (exists ex e, Deps.new_SupabaseExecutor deps = Returned ex /\
                Deps.new_MultiAgentSystem deps ex = Thrown e) \/
  (exists ex e, Deps.new_SupabaseExecutor deps = Returned ex /\
                Executor.testConnection ex = Thrown e) \/
  (exists e, Transport.initialize (web w) (fresh w) = Thrown e) \/
  (exists e, Deps.app_listen deps (WhatsAppAISystem.port s) = Thrown e).


(** The world and the system object at the moment the module-level code
    calls [initialize]. *)
Definition loaded (deps : Deps.t) (w : World) : World :=
  with_systemRunning (with_env w (env w ∪ Deps.dotenv_file deps)) true.
Definition constructed (deps : Deps.t) (w : World) : WhatsAppAISystem.t :=
  WhatsAppAISystem.mk (or_else (env (loaded deps w) !! "PORT") "8080")
                      None None None None.

(** The event names of [setupEventHandlers], in the order of the source. *)
Definition callback_events : list string :=
  ["qr"; "ready"; "authenticated"; "loading_screen";
   "message"; "disconnected"; "auth_failure"; "error"].

(** ** More of what a run did, and more predicates *)

(** The calls of [responseFormatter.format], in order. *)
Definition format_calls (evs : list Event) : list (option AiResponse.t) :=
  omap (fun e => match e with FormatterFormat r => Some r | _ => None end) evs.

(** The sessions on which [client.destroy] was called. *)
Definition session_destroys (evs : list Event) : list nat :=
  omap (fun e => match e with ClientDestroy c => Some c | _ => None end) evs.

(** The classes constructed by the entry point, in order. *)
Definition constructions (evs : list Event) : list string :=
  omap (fun e => match e with Construct c => Some c | _ => None end) evs.

(** The codes given to [process.exit]. *)
Definition exits (evs : list Event) : list Z :=
  omap (fun e => match e with ProcessExit code => Some code | _ => None end) evs.

(** The ports given to [app.listen]. *)
Definition listens (evs : list Event) : list string :=
  omap (fun e => match e with AppListen p => Some p | _ => None end) evs.

(** What every run of the message handler keeps to: replies go through the
    message handled, there are at most two of them, the AI agent is called at
    most once and [client.sendMessage] is not called. *)
Definition handled (message : Message.t) (evs : list Event) : Prop :=
  Forall (fun p => p.1 = Message.id message) (replies evs) /\
  (length (replies evs) <= 2)%nat /\
  (length (ai_calls evs) <= 1)%nat /\
  transport_sends evs = [].

(** Every registration belongs to a session that exists, and the current
    session has each of its eight callbacks registered once. *)
Definition tidy (b : WhatsAppBot.t) (w : World) : Prop :=
  (forall r, In r (listeners w) -> (r.1 < fresh w)%nat) /\
  (forall c, WhatsAppBot.client b = Some c ->
     (c < fresh w)%nat /\
     forall name, In name callback_events ->
       length (List.filter (WhatsAppBot.registered c name) (listeners w)) = 1%nat).

(** The session, the listener table and the handle counter are as before. *)
Definition same_sessions (b : WhatsAppBot.t) (w : World)
    (b' : WhatsAppBot.t) (w' : World) : Prop :=
  WhatsAppBot.client b' = WhatsAppBot.client b /\
  listeners w' = listeners w /\ fresh w' = fresh w.

(** A happening that can raise the ready flag: a timeout, or a 'ready'
    event. *)
Definition raises_flag (x : Happening) : bool :=
  match x with
  | Fires _ => true
  | Emitted _ EvReady => true
  | _ => false
  end.

(** The events that a callback of the bot never produces: it creates no
    session, registers no listener, arms no timeout, calls no method of the
    session object and nothing of the entry point. *)
Definition of_callback (e : Event) : bool :=
  match e with
  | ConsoleLog _ | ConsoleError _ | QrGenerate _
  | MsgGetContact _ | MsgGetChat _ | MsgReply _ _ | ChatSendStateTyping
  | AgentProcessMessage _ _ | FormatterFormat _
  | ClearTimeout _ | Unhandled _ => true
  | _ => false
  end.

(** What a callback of the bot leaves alone: it does not end the process,
    its effects are those of a callback, the session, the listener table,
    the handle counter, the library, the environment, the running flag and
    the collaborators stay as they are, and the clock does not go back. *)
Definition callback_frame {A} (m : M WhatsAppBot.t A) : Prop :=
  forall b w,
    let r := m b w in
    (forall c, result r <> Exit c) /\
    Forall (fun e => of_callback e = true) (effects r) /\
    same_sessions b w (this' r) (world' r) /\
    web (world' r) = web w /\ env (world' r) = env w /\
    systemRunning (world' r) = systemRunning w /\
    now w <= now (world' r) /\
    WhatsAppBot.aiAgent (this' r) = WhatsAppBot.aiAgent b /\
    WhatsAppBot.responseFormatter (this' r) = WhatsAppBot.responseFormatter b.

(** The required variables that are missing, in the order of the source. *)
Definition missing (w : World) : list string :=
  List.filter (fun v => negb (truthy (env w !! v))) WhatsAppAISystem.required.

(** Something fails in [WhatsAppAISystem.initialize] before [app.listen] is
    reached. *)
Definition fails_before_listen (deps : Deps.t) (w : World) : Prop :=
  (exists v, In v WhatsAppAISystem.required /\ unset w v) \/
  (exists e, Deps.new_ResponseFormatter deps = Thrown e) \/
  (exists e, Deps.new_SupabaseExecutor deps = Thrown e) \/
  (exists ex e, Deps.new_SupabaseExecutor deps = Returned ex /\
                Deps.new_MultiAgentSystem deps ex = Thrown e) \/
  (exists ex e, Deps.new_SupabaseExecutor deps = Returned ex /\
                Executor.testConnection ex = Thrown e) \/
  (exists e, Transport.initialize (web w) (fresh w) = Thrown e).

(** ** Concrete runs *)

Module Scenario.
Import WhatsAppBot Lifecycle.

Definition lib : Transport.t :=
  Transport.mk (fun _ => Returned tt) (fun _ => [])
               (fun _ _ _ => Returned tt) (fun _ => Returned tt).
Definition world0 : World := mkWorld 1000 0 ∅ [] lib ∅ false.

Definition alice : Contact.t := Contact.mk (Some "Alice") "5511999990000".
Definition typing_ok : Chat.t := Chat.mk (Returned tt).

(** An AI agent that answers [{response: "Hello!"}]. *)
Definition hello_agent : Agent.t :=
  Agent.mk (fun _ _ => Returned (Some (AiResponse.mk (Some "Hello!") []))) (Some true).
(** A formatter that returns the text of its input unchanged. *)
Definition plain_formatter : Formatter.t :=
  Formatter.mk (fun r => Returned (r ← r; AiResponse.response r)).

Definition bot0 : WhatsAppBot.t :=
  constructor (Some hello_agent) (Some plain_formatter) world0.

Definition hi : Message.t :=
  Message.mk 7 false "chat" "Hi" (Returned alice) (Returned typing_ok)
             (fun _ => Returned tt).
Definition own : Message.t :=
  Message.mk 9 true "chat" "Hello!" (Returned alice) (Returned typing_ok)
             (fun _ => Returned tt).

(** After [initialize]: session 0, timeout 1 due at 46000. *)
Definition started : WhatsAppBot.t * World := after CallInitialize bot0 world0.
(** ... and 45 seconds later. *)
Definition waited : WhatsAppBot.t * World :=
  after (TimePasses 45000) started.1 started.2.
(** After [initialize] and the 'ready' event of the session. *)
Definition ready : WhatsAppBot.t * World := after (Emits 0 EvReady) started.1 started.2.

Definition deps0 : Deps.t :=
  Deps.mk (Returned plain_formatter)
          (Returned (Executor.mk (Returned tt) (Some true)))
          (fun _ => Returned hello_agent)
          (fun _ => Returned tt)
          ∅.
(** OPENAI_API_KEY and SUPABASE_URL are set, SUPABASE_KEY is not. *)
Definition world_without_key : World :=
  mkWorld 1000 0 ∅ [] lib
          (<["OPENAI_API_KEY" := "sk-test"]>
             (<["SUPABASE_URL" := "https://example.supabase.co"]> ∅))
          true.
(** The same process before the entry point is loaded. *)
Definition world_fresh : World := with_systemRunning world_without_key false.
(** All three required variables are set. *)
Definition world_with_keys : World :=
  with_env world_without_key
           (<["SUPABASE_KEY" := "service-role-key"]> (env world_without_key)).
Definition system0 : WhatsAppAISystem.t :=
  WhatsAppAISystem.mk "8080" None None None None.
(** The typing indicator cannot be shown. *)
Definition typing_fails : Chat.t := Chat.mk (Thrown (new_Error "Protocol error")).
Definition hi_typing_fails : Message.t :=
  Message.mk 7 false "chat" "Hi" (Returned alice) (Returned typing_fails)
             (fun _ => Returned tt).
(** A formatter that throws, and bots with it and with none. *)
Definition failing_formatter : Formatter.t :=
  Formatter.mk (fun _ => Thrown (new_Error "Cannot read properties of undefined")).
Definition bot_without_formatter : WhatsAppBot.t :=
  constructor (Some hello_agent) None world0.
Definition bot_failing_formatter : WhatsAppBot.t :=
  constructor (Some hello_agent) (Some failing_formatter) world0.
(** [initialize] called a second time: session 2, timeout 3. *)
Definition restarted : WhatsAppBot.t * World :=
  after CallInitialize started.1 started.2.
(** A process that was not started yet, with the three variables set. *)
Definition world_fresh_with_keys : World := with_systemRunning world_with_keys false.

(** The contact lookup is rejected with [null]. *)
Definition hi_lookup_null : Message.t :=
  Message.mk 7 false "chat" "Hi" (Thrown Exn.Null)
             (Returned typing_ok) (fun _ => Returned tt).
(** The typing indicator is rejected with [undefined]. *)
Definition typing_undefined : Chat.t := Chat.mk (Thrown Exn.Undefined).
Definition hi_typing_undefined : Message.t :=
  Message.mk 7 false "chat" "Hi" (Returned alice) (Returned typing_undefined)
             (fun _ => Returned tt).
(** A formatter that throws [null]. *)
Definition formatter_null : Formatter.t := Formatter.mk (fun _ => Thrown Exn.Null).
Definition bot_formatter_null : WhatsAppBot.t :=
  constructor (Some hello_agent) (Some formatter_null) world0.
End Scenario.

Ltac js_step :=
  cbn -[String.eqb String.append substring or_else truthy includes decimal
        WhatsAppBot.processMessageWithAI WhatsAppBot.handleMessage answer].

(** The same, for the entry point: the adapter's methods stay folded. *)
Ltac sys_step :=
  cbn -[String.eqb String.append substring or_else truthy includes decimal
        lookup union String.concat List.filter Nat.ltb
        WhatsAppBot.initialize WhatsAppBot.destroy WhatsAppBot.constructor
        WhatsAppAISystem.initialize].

Ltac js_unfold :=
  unfold try_catch, bind, call, settle, console_log, console_error, emit, ret, throw,
    get_this, get_world, set_this, set_world.

Ltac js_case :=
  match goal with
  | |- context [if Message.fromMe ?m then _ else _] =>
      destruct (Message.fromMe m) eqn:?
  | |- context [String.eqb (Message.type ?m) "chat"] =>
      destruct (String.eqb (Message.type m) "chat") eqn:?
  | |- context [match WhatsAppBot.aiAgent ?b with _ => _ end] =>
      destruct (WhatsAppBot.aiAgent b) eqn:?
  | |- context [match WhatsAppBot.responseFormatter ?b with _ => _ end] =>
      destruct (WhatsAppBot.responseFormatter b) eqn:?
  | |- context [match ?o with Returned _ => _ | Thrown _ => _ end] =>
      destruct o as [[]|] eqn:? || destruct o eqn:?
  | |- context [if nullish ?v then _ else _] =>
      destruct (nullish v) eqn:?
  | |- context [if truthy ?v then _ else _] =>
      destruct (truthy v) eqn:?
  end; js_step.

Ltac js_run := js_unfold; unfold settle, error_stack, throw, ret; js_step; repeat js_case.

Ltac callbacks :=
  repeat first [ assumption
               | apply Forall_nil_2
               | apply Forall_cons_2; [reflexivity|]
               | apply Forall_app_2 ].

(** The cases of [handleMessage], in the order in which it runs. *)
Ltac hm_case ai_run :=
  first
  [ match goal with |- context [if Message.fromMe ?m then _ else _] =>
      destruct (Message.fromMe m) eqn:? end
  | match goal with |- context [match Message.getContact ?m with _ => _ end] =>
      destruct (Message.getContact m) as [?contact|?v] eqn:? end
  | match goal with |- context [match Message.getChat ?m with _ => _ end] =>
      destruct (Message.getChat m) as [?chat|?v] eqn:? end
  | match goal with |- context [String.eqb (Message.type ?m) "chat"] =>
      destruct (String.eqb (Message.type m) "chat") eqn:? end
  | match goal with |- context [match Chat.sendStateTyping ?c with _ => _ end] =>
      destruct (Chat.sendStateTyping c) as [[]|?v] eqn:? end
  | match goal with
    | |- context [WhatsAppBot.processMessageWithAI ?body ?contact ?b ?w0] =>
        let r := fresh "r" in
        let Eai := fresh "Eai" in
        let Hnn := fresh "Hnn" in
        let Hexit := fresh "Hexit" in
        destruct (ai_run b w0 body contact)
          as (r & ?evs & Eai & ?Hrep & ?Hsend & ?Hcb & Hexit & Hnn & ?Hlen & ?Hnone & ?Hsome);
        rewrite Eai;
        destruct r as [?out|?e|?code];
          [ | specialize (Hnn _ eq_refl) | destruct (Hexit _ eq_refl)]
    end
  | match goal with |- context [if truthy ?v then _ else _] =>
      destruct (truthy v) eqn:? end
  | match goal with |- context [if nullish ?v then _ else _] =>
      destruct (nullish v) eqn:? end
  | match goal with |- context [match Message.reply ?m ?t with _ => _ end] =>
      destruct (Message.reply m t) as [[]|?v] eqn:? end
  ]; simplify_eq; js_step.

Ltac hm_run ai_run :=
  unfold WhatsAppBot.handleMessage; js_unfold; unfold settle, error_stack, throw, ret;
  js_step; repeat hm_case ai_run.

(** Reading the replies and the calls off the effects of a run of
    [handleMessage] that contain the effects [evs] of the AI path. *)
Ltac read_off :=
  unfold replies, ai_calls, transport_sends, format_calls in *;
  rewrite ?omap_app;
  repeat match goal with
         | H : omap _ ?evs = [] |- context [omap _ ?evs] => rewrite H
         end;
  cbn.

(** Rewrite with the cases taken. *)
Ltac use_cases :=
  repeat match goal with
         | H : Message.reply _ _ = _ |- _ => rewrite H
         | H : nullish _ = _ |- _ => rewrite H
         end.

(** * Proofs *)

(** ** Strings *)

Lemma append_nil_l (s : string) : "" +:+ s = s.
Proof. reflexivity. Qed.

Lemma append_cons (c : ascii) (s1 s2 : string) :
  String c s1 +:+ s2 = String c (s1 +:+ s2).
Proof. reflexivity. Qed.

Lemma prefix_app (sub s : string) :
  String.prefix sub s = true <-> exists rest, s = sub +:+ rest.
Proof.
  revert s. induction sub as [|a sub IH]; intros s.
  - split; [exists s; reflexivity | destruct s; reflexivity].
  - destruct s as [|b s]; cbn [String.prefix].
    + split; [discriminate | intros [rest H]; rewrite append_cons in H; discriminate].
    + destruct (ascii_dec a b) as [->|Hne].
      * rewrite IH. split; intros [rest H]; exists rest;
          rewrite append_cons in *; congruence.
      * split; [discriminate | intros [rest H]; rewrite append_cons in H; congruence].
Qed.

Lemma includes_spec (s sub : string) : includes s sub = true <-> contains s sub.
Proof.
  unfold contains. induction s as [|c s IH]; cbn [includes].
  - destruct (String.prefix sub "") eqn:E.
    + split; [|reflexivity]. intros _. apply prefix_app in E as [rest E].
      exists "", rest. exact E.
    + split; [discriminate|]. intros (before & after & H).
      destruct before; [|rewrite append_cons in H; discriminate].
      rewrite append_nil_l in H.
      assert (String.prefix sub "" = true) by (apply prefix_app; eauto). congruence.
  - destruct (String.prefix sub (String c s)) eqn:E.
    + split; [|reflexivity]. intros _. apply prefix_app in E as [rest E].
      exists "", rest. exact E.
    + rewrite IH. split.
      * intros (before & after & H). exists (String c before), after.
        rewrite append_cons. congruence.
      * intros (before & after & H). destruct before as [|c' before].
        -- rewrite append_nil_l in H.
           assert (String.prefix sub (String c s) = true) by (apply prefix_app; eauto).
           congruence.
        -- rewrite append_cons in H. injection H as _ H. eauto.
Qed.

(** A console line that is not among the effects. *)
Ltac not_printed :=
  unfold ai_path_entered; cbn [In]; rewrite ?append_cons;
  intros H;
  repeat (destruct H as [H|H]; [discriminate H|]);
  exact H.

(** ** State reasoning in the monad *)

Section Hoare.
Context {T : Type}.
Implicit Types P Q R : T -> World -> Prop.

Lemma post_bind {A B} P Q R (m : M T A) (k : A -> M T B) :
  post P m Q -> (forall t w, Q t w -> R t w) -> (forall a, post Q (k a) R) ->
  post P (bind m k) R.
Proof.
  intros Hm HQR Hk t w HP. specialize (Hm t w HP). unfold bind.
  destruct (m t w) as [[a|e|c] t1 w1 evs1]; cbn in *; auto.
  specialize (Hk a t1 w1 Hm). destruct (k a t1 w1); cbn in *; auto.
Qed.

Lemma post_ret {A} P (a : A) : post P (ret a) P.
Proof. intros t w HP. exact HP. Qed.

Lemma bind_continues {A B} (m : M T A) (k : A -> M T B) t w a :
  result (m t w) = Val a ->
  this' (bind m k t w) = this' (k a (this' (m t w)) (world' (m t w))) /\
  world' (bind m k t w) = world' (k a (this' (m t w)) (world' (m t w))).
Proof.
  unfold bind. destruct (m t w) as [r t1 w1 evs1]; cbn. intros ->.
  destruct (k a t1 w1); auto.
Qed.

Lemma bind_stops {A B} (m : M T A) (k : A -> M T B) t w :
  (forall a, result (m t w) <> Val a) ->
  this' (bind m k t w) = this' (m t w) /\ world' (bind m k t w) = world' (m t w).
Proof.
  unfold bind. destruct (m t w) as [[a|e|c] t1 w1 evs1]; cbn; auto.
  intros H. destruct (H a eq_refl).
Qed.
End Hoare.

(** ** Caught values *)

Lemma error_stack_run {T} (v : Exn.t) (t : T) (w : World) :
  error_stack v t w =
  if nullish v then mkRun (Err (cannot_read v "stack")) t w []
  else mkRun (Val (AStack v)) t w [].
Proof. unfold error_stack. destruct (nullish v); reflexivity. Qed.

Lemma detached_state {T A} (m : M T A) t w :
  this' (detached m t w) = this' (m t w) /\ world' (detached m t w) = world' (m t w).
Proof. unfold detached. destruct (m t w) as [[a|v|c] t1 w1 evs1]; auto. Qed.

Lemma detached_result {T A} (m : M T A) t w :
  (forall c, result (m t w) <> Exit c) -> result (detached m t w) = Val tt.
Proof.
  unfold detached. destruct (m t w) as [[a|v|c] t1 w1 evs1]; cbn; auto.
  intros H. destruct (H c eq_refl).
Qed.

Lemma detached_effects {T A} (m : M T A) t w :
  effects (detached m t w) =
  (effects (m t w) ++ match result (m t w) with Err v => [Unhandled v] | _ => [] end)%list.
Proof.
  unfold detached. destruct (m t w) as [[a|v|c] t1 w1 evs1]; cbn;
    rewrite ?app_nil_r; reflexivity.
Qed.

(** ** The message path of the adapter *)

Section Adapter.
Import WhatsAppBot.
Variables (bot : WhatsAppBot.t) (w : World).

(** [processMessageWithAI] leaves the bot and the world as they were and
    sends nothing; what it ends with is fixed by what the agent and the
    formatter do. *)
Lemma processMessageWithAI_run messageText contact :
  exists r evs,
    processMessageWithAI messageText contact bot w = mkRun r bot w evs
    /\ replies evs = [] /\ transport_sends evs = []
    /\ Forall (fun e => of_callback e = true) evs
    /\ (forall c, r <> Exit c)
    /\ (forall v, r = Err v -> nullish v = false)
    /\ (length (ai_calls evs) <= 1)%nat
    /\ (aiAgent bot = None ->
        r = Val (Some ai_unavailable) /\ ai_calls evs = [] /\ format_calls evs = [])
    /\ (forall agent, aiAgent bot = Some agent ->
          ai_calls evs = [(messageText, user_context contact w)] /\
          match Agent.processMessage agent messageText (user_context contact w) with
          | Thrown v =>
              format_calls evs = [] /\
              r = if nullish v then Err (cannot_read v "stack") else Val (Some ai_apology)
          | Returned air =>
              match responseFormatter bot with
              | None =>
                  format_calls evs = [] /\
                  r = Val (Some (or_else (r ← air; AiResponse.response r)
                                         formatting_error))
              | Some f =>
                  format_calls evs = [air] /\
                  match Formatter.format f air with
                  | Returned out => r = Val out
                  | Thrown v =>
                      r = if nullish v then Err (cannot_read v "stack")
                          else Val (Some ai_apology)
                  end
              end
          end).
Proof.
  unfold processMessageWithAI, user_context. js_run.
  all: do 2 eexists; (split; [reflexivity|]).
  all: (split; [reflexivity|]); (split; [reflexivity|]).
  all: split; [repeat constructor|].
  all: split; [discriminate|].
  all: split; [intros; simplify_eq; reflexivity|].
  all: split; [cbn; lia|].
  all: split; [intros; simplify_eq; auto|].
  all: intros agent' ?; simplify_eq.
  all: split; [reflexivity|].
  all: repeat match goal with H : _ = _ |- _ => rewrite H end; auto.
Qed.

End Adapter.

(** The message handler changes nothing in the bot or the world and does
    not end the process; when it throws, it throws the TypeError of reading
    [stack] of a caught [null] or [undefined]. *)
Lemma handleMessage_state (bot : WhatsAppBot.t) (w : World) (message : Message.t) :
  let r := WhatsAppBot.handleMessage message bot w in
  this' r = bot /\ world' r = w /\
  (forall c, result r <> Exit c) /\
  Forall (fun e => of_callback e = true) (effects r) /\
  (result r = Val tt \/
   exists v, nullish v = true /\ result r = Err (cannot_read v "stack")).
Proof.
  cbv zeta. hm_run processMessageWithAI_run.
  all: try congruence.
  all: split; [reflexivity|]; split; [reflexivity|]; split; [discriminate|].
  all: split; [callbacks|].
  all: try (left; reflexivity).
  all: right; eexists; split; [eassumption|reflexivity].
Qed.


(** When one of the three calls made before the AI path throws, the AI
    path is not entered; the handler's error apology is the only reply,
    unless the value thrown is [null] or [undefined]: then nothing is sent
    and the handler throws. *)
Lemma preparation_failure
    (bot : WhatsAppBot.t) (w : World) (message : Message.t) (v : Exn.t) :
  Message.fromMe message = false ->
  Message.type message = "chat" ->
  preparation_throws message v ->
  let r := WhatsAppBot.handleMessage message bot w in
  ~ ai_path_entered (effects r) /\
  ai_calls (effects r) = [] /\
  format_calls (effects r) = [] /\
  In (ConsoleError [AStr "❌ Erro ao processar mensagem:"; AErr v]) (effects r) /\
  if nullish v
  then replies (effects r) = [] /\ result r = Err (cannot_read v "stack")
  else replies (effects r) = [(Message.id message, WhatsAppBot.handler_error_apology)] /\
       result r = Val tt.
Proof.
  intros Hme Hty Hv.
  assert (Ht : String.eqb (Message.type message) "chat" = true)
    by (rewrite Hty; reflexivity).
  cbv zeta.
  destruct Hv as [[Hv|(contact & Hco & Hv)]|(contact & chat & Hco & Hch & Hv)].
  all: hm_run processMessageWithAI_run; try congruence.
  all: (split; [rewrite ?Hty; not_printed|]).
  all: use_cases; cbn; auto 20.
Qed.







(** C3. For every inbound message with [fromMe] true, [handleMessage]
    returns at once: it prints its two console lines and does nothing else,
    so no reply is sent and the AI agent is not called. *)
Theorem handleMessage_ignores_own_messages
    (bot : WhatsAppBot.t) (w : World) (message : Message.t) :
  Message.fromMe message = true ->
  let r := WhatsAppBot.handleMessage message bot w in
  result r = Val tt /\
  effects r = [ConsoleLog [AStr "📨 PROCESSANDO MENSAGEM..."];
               ConsoleLog [AStr "🔄 Ignorando mensagem própria"]] /\
  replies (effects r) = [] /\
  ai_calls (effects r) = [].
Proof.
  intros Hme. cbv zeta. unfold WhatsAppBot.handleMessage. js_unfold. js_step.
  rewrite Hme. js_step. auto.
Qed.

Lemma handleMessage_ignores_own_messages_witness :
  Message.fromMe Scenario.own = true /\
  replies (effects (WhatsAppBot.handleMessage Scenario.own Scenario.bot0
                      Scenario.world0)) = [] /\
  ai_calls (effects (WhatsAppBot.handleMessage Scenario.own Scenario.bot0
                       Scenario.world0)) = [].
Proof.
  split; [reflexivity|].
  destruct (handleMessage_ignores_own_messages
              Scenario.bot0 Scenario.world0 Scenario.own eq_refl)
    as (_ & _ & Hrep & Hai).
  split; [exact Hrep|exact Hai].
Defined.




(** ** The event loop *)

Section EventLoop.
Import WhatsAppBot Lifecycle.

(** *** The state after each method and callback *)

Lemma bind_ret_state {T A} (m : M T A) t w :
this' (bind m (fun _ => ret tt) t w) = this' (m t w) /\
world' (bind m (fun _ => ret tt) t w) = world' (m t w).
Proof. unfold bind, ret. destruct (m t w) as [[a|v|c] t1 w1 evs1]; auto. Qed.

Lemma sendMessage_state number message b w :
this' (sendMessage number message b w) = b /\
world' (sendMessage number message b w) = w.
Proof.
unfold sendMessage, this_client. js_unfold. js_step.
destruct (isReady b); js_step; [|auto].
destruct (client b); js_step; [|auto].
destruct (Transport.sendMessage _ _ _ _) as [[]|]; js_step; auto.
Qed.

Lemma initialize_call_state b w :
let r := initialize_call b w in
let c := fresh w in
let h := S (fresh w) in
result r = Val c /\
this' r = mk (aiAgent b) (responseFormatter b) (Some c) (isReady b)
             (sessionPath b) (clientId b) (Some h) /\
timers (world' r) =
  <[h := now w + 45000]>
    (match initTimeout b with Some h0 => delete h0 (timers w) | None => timers w end) /\
listeners (world' r) =
  (listeners w ++ map (pair c) callback_events)%list /\
registrations (effects r) =
  map (pair c) callback_events /\
timeouts_armed (effects r) = [(h, 45000)] /\
fresh (world' r) = S (S (fresh w)) /\
now (world' r) = now w /\ web (world' r) = web w /\
env (world' r) = env w /\ systemRunning (world' r) = systemRunning w /\
constructions (effects r) = [] /\ listens (effects r) = [] /\
exits (effects r) = [].
Proof.
unfold initialize_call, setupEventHandlers, client_on, new_Client, setTimeout, clearTimeout,
  set_client, set_initTimeout, this_client.
js_unfold. js_step.
destruct (initTimeout b) as [h0|]; js_step.
all: rewrite <- ?app_assoc; repeat split; reflexivity.
Qed.

Lemma destroy_state b w :
let r := destroy b w in
this' r = b /\
timers (world' r) =
  match initTimeout b with Some h => delete h (timers w) | None => timers w end /\
listeners (world' r) = listeners w.
Proof.
unfold destroy, clearTimeout. js_unfold. js_step.
destruct (initTimeout b) as [h|]; js_step.
all: destruct (client b) as [c|]; js_step; auto.
all: destruct (Transport.destroy _ _) as [[]|]; js_step; auto.
Qed.

Lemma forceReady_state b w :
let r := forceReady b w in
isReady (this' r) = true /\ client (this' r) = client b /\
initTimeout (this' r) = initTimeout b /\ world' r = w.
Proof.
unfold forceReady, client_listenerCount, this_client, set_isReady. js_unfold. js_step.
destruct (client b) as [c|]; js_step; auto.
Qed.

Lemma fires_state h b w :
let r := fires h b w in
isReady (this' r) = true /\ client (this' r) = client b /\
initTimeout (this' r) = initTimeout b /\
timers (world' r) = delete h (timers w) /\
listeners (world' r) = listeners w.
Proof.
unfold fires, onInitTimeout, forceReady, client_listenerCount, this_client, set_isReady.
js_unfold. js_step.
destruct (isReady b) eqn:E; js_step; [auto|].
destruct (client b) as [c|]; js_step; auto.
Qed.

Lemma handler_ready_state b w :
let r := handler EvReady b w in
isReady (this' r) = true /\ client (this' r) = client b /\
initTimeout (this' r) = None /\
timers (world' r) =
  match initTimeout b with Some h => delete h (timers w) | None => timers w end /\
listeners (world' r) = listeners w.
Proof.
unfold handler, client_listenerCount, this_client, set_isReady, set_initTimeout,
  clearTimeout.
js_unfold. js_step.
destruct (initTimeout b) as [h|] eqn:E; js_step.
all: destruct (client b) as [c|]; js_step; auto.
Qed.

Lemma handler_disconnected_state reason b w :
let r := handler (EvDisconnected reason) b w in
isReady (this' r) = false /\ client (this' r) = client b /\
initTimeout (this' r) = initTimeout b /\ world' r = w.
Proof. js_step. auto. Qed.

Lemma handler_other_state ev b w :
ev <> EvReady -> (forall reason, ev <> EvDisconnected reason) ->
this' (handler ev b w) = b /\ world' (handler ev b w) = w.
Proof.
intros Hr Hd. destruct ev; try (js_step; auto; fail).
- congruence.
- unfold handler. js_unfold.
  destruct (handleMessage_state b w message) as (H1 & H2 & _).
  cbn. destruct (handleMessage message b w) as [[]]; cbn in *; auto.
- exfalso. eapply Hd. reflexivity.
Qed.

Lemma listener_state ev b w :
this' (listener ev b w) = this' (handler ev b w) /\
world' (listener ev b w) = world' (handler ev b w).
Proof. destruct ev; try (split; reflexivity). apply detached_state. Qed.

(** *** The invariant of the event loop *)

Lemma inv_constructor agent formatter w :
timers w = ∅ -> listeners w = [] -> inv (constructor agent formatter w) w.
Proof.
intros Ht Hl. split; [|split]; cbn; auto.
- intros h. rewrite Ht. intros H. destruct (lookup_empty_is_Some _ H).
- discriminate.
Qed.

(** A step that keeps the session, keeps the listeners and only removes
  timeouts keeps the invariant. *)
Lemma inv_shrink b w b' w' :
inv b w -> client b' = client b -> client b <> None ->
listeners w' = listeners w ->
(forall h, is_Some (timers w' !! h) ->
           is_Some (timers w !! h) /\ initTimeout b' = initTimeout b) ->
inv b' w'.
Proof.
intros (I1 & I2 & I3) Hc Hn Hl Ht. split; [|split].
- intros E. rewrite Hc in E. contradiction.
- intros h Hh. destruct (Ht h Hh) as [Hp ->]. auto.
- intros c E. rewrite Hl. apply I3. congruence.
Qed.

Lemma inv_initialize_call b w :
inv b w -> inv (this' (initialize_call b w)) (world' (initialize_call b w)).
Proof.
intros (I1 & I2 & I3).
destruct (initialize_call_state b w) as (_ & Hb & Ht & Hl & _).
rewrite Hb. split; [|split].
- discriminate.
- intros h. rewrite Ht, lookup_insert_is_Some. cbn.
  intros [<-|[Hne Hp]]; [reflexivity|]. exfalso.
  destruct (initTimeout b) as [h0|] eqn:E.
  + apply lookup_delete_is_Some in Hp as [Hne0 Hp]. apply I2 in Hp. congruence.
  + apply I2 in Hp. discriminate.
- intros c E. cbn in E. injection E as <-.
  rewrite Hl. split; apply in_or_app; right; cbn; auto 10.
Qed.

Lemma inv_destroy b w :
inv b w -> inv (this' (destroy b w)) (world' (destroy b w)).
Proof.
intros I. destruct (destroy_state b w) as (Hb & Ht & Hl).
rewrite Hb. destruct (client b) as [c|] eqn:Ec.
- apply (inv_shrink b w); auto; try congruence.
  intros h. rewrite Ht. destruct (initTimeout b); [|auto].
  rewrite lookup_delete_is_Some. tauto.
- destruct I as (I1 & I2 & I3). destruct (I1 Ec) as (Hr & Hte & Hle).
  assert (Ht' : timers (world' (destroy b w)) = ∅).
  { rewrite Ht, Hte. destruct (initTimeout b); [apply delete_empty|reflexivity]. }
  split; [|split].
  + intros _. rewrite Hl. auto.
  + intros h. rewrite Ht'. intros H. destruct (lookup_empty_is_Some _ H).
  + intros c E. congruence.
Qed.

Lemma inv_fires h b w :
inv b w -> is_Some (timers w !! h) ->
inv (this' (fires h b w)) (world' (fires h b w)).
Proof.
intros I Hp. destruct (fires_state h b w) as (Hr & Hc & Hi & Ht & Hl).
assert (Hn : client b <> None).
{ intros E. destruct I as (I1 & _). destruct (I1 E) as (_ & Hte & _).
  rewrite Hte in Hp. destruct (lookup_empty_is_Some _ Hp). }
apply (inv_shrink b w); auto.
intros h'. rewrite Ht, lookup_delete_is_Some. tauto.
Qed.

Lemma inv_handler ev b w :
inv b w -> client b <> None ->
let r := handler ev b w in
inv (this' r) (world' r) /\ client (this' r) = client b.
Proof.
intros I Hn r. subst r. destruct ev.
2:{ destruct (handler_ready_state b w) as (_ & Hc & Hi & Ht & Hl).
    split; [|exact Hc]. apply (inv_shrink b w); auto.
    intros h Hp. exfalso. destruct I as (_ & I2 & _).
    rewrite Ht in Hp. destruct (initTimeout b) as [h0|] eqn:E.
    - apply lookup_delete_is_Some in Hp as [Hne Hp]. apply I2 in Hp. congruence.
    - apply I2 in Hp. discriminate. }
5:{ destruct (handler_disconnected_state reason b w) as (_ & Hc & Hi & ->).
    split; [|exact Hc]. apply (inv_shrink b w); auto. }
all: match goal with |- context [handler ?e ?b0 ?w0] =>
       destruct (handler_other_state e b0 w0) as [-> ->];
       [discriminate | intros; discriminate | auto] end.
Qed.

Lemma inv_listener ev b w :
inv b w -> client b <> None ->
let r := listener ev b w in
inv (this' r) (world' r) /\ client (this' r) = client b.
Proof.
intros I Hn. cbv zeta. destruct (listener_state ev b w) as [-> ->].
apply inv_handler; assumption.
Qed.

Lemma call_listeners_inv c0 ls c ev :
post (fun b w => inv b w /\ client b = Some c0)
     (call_listeners ls c ev)
     (fun b w => inv b w /\ client b = Some c0).
Proof.
induction ls as [|r rest IH]; [apply post_ret|].
cbn [call_listeners].
eapply post_bind; [|intros t w H; exact H|intros _; exact IH].
intros b w [I Hc]. destruct (registered c (event_name ev) r); [|auto].
destruct (inv_listener ev b w I) as [I' Hc']; [congruence|].
split; [exact I'|congruence].
Qed.

Lemma inv_emits c ev b w :
inv b w -> inv (this' (emits c ev b w)) (world' (emits c ev b w)).
Proof.
intros I. unfold emits. js_unfold. cbn.
destruct (client b) as [c0|] eqn:Ec.
- pose proof (call_listeners_inv c0 (listeners w) c ev b w (conj I Ec)) as [I' _].
  destruct (call_listeners _ _ _ _ _); exact I'.
- destruct I as (I1 & I2 & I3). destruct (I1 Ec) as (Hr & Ht & Hl).
  rewrite Hl. cbn. split; [|split]; auto.
Qed.

Lemma inv_after l b w :
inv b w -> enabled l w = true -> inv (after l b w).1 (after l b w).2.
Proof.
intros I He. unfold after. cbn [fst snd]. destruct l; cbn [action].
- destruct (bind_ret_state initialize_call b w) as [-> ->].
  apply inv_initialize_call, I.
- unfold bind. destruct (sendMessage_state number message b w) as [Hb Hw].
  destruct (sendMessage number message b w) as [[] ? ? ?]; cbn in *; subst; exact I.
- apply inv_destroy, I.
- exact I.
- apply inv_fires; [exact I|]. cbn in He. unfold due in He.
  destruct (timers w !! h); [eauto|discriminate].
- apply inv_emits, I.
- exact I.
- exact I.
Qed.

Lemma reachable_inv b w : reachable b w -> inv b w.
Proof.
induction 1 as [agent formatter w Ht Hl | l b w _ IH He].
- apply inv_constructor; assumption.
- apply inv_after; assumption.
Qed.

Lemma reachable_ready_session b w :
reachable b w -> isReady b = true -> exists c, client b = Some c.
Proof.
intros Hr Hready. destruct (reachable_inv b w Hr) as (I1 & _).
destruct (client b) as [c|]; [eauto|].
destruct (I1 eq_refl) as (Hf & _). congruence.
Qed.

(** *** Who sets the flag *)

Lemma handler_ready_settles c0 b w :
session_of c0 b w ->
settled (this' (handler EvReady b w)) (world' (handler EvReady b w)).
Proof.
intros [(I1 & I2 & I3) Hc].
destruct (handler_ready_state b w) as (Hr & _ & Hi & Ht & _).
split; [exact Hr|]. split; [exact Hi|].
apply map_empty. intros h. rewrite Ht.
destruct (initTimeout b) as [h0|] eqn:E.
- destruct (decide (h0 = h)) as [->|Hne]; [apply lookup_delete_eq|].
  rewrite lookup_delete_ne by exact Hne.
  destruct (timers w !! h) eqn:El; [|reflexivity].
  assert (Some h0 = Some h) by (apply I2; eauto). congruence.
- destruct (timers w !! h) eqn:El; [|reflexivity].
  assert (None = Some h) by (apply I2; eauto). discriminate.
Qed.

(** When a callback brings every state with the current session into [S],
  emitting its event on a session that has the callback registered ends
  in [S]. *)
Lemma call_listeners_establishes c0 c ev (S : WhatsAppBot.t -> World -> Prop) :
(forall b w, session_of c0 b w -> S (this' (handler ev b w)) (world' (handler ev b w))) ->
forall ls b w,
  session_of c0 b w ->
  S b w \/ existsb (registered c (event_name ev)) ls = true ->
  S (this' (call_listeners ls c ev b w)) (world' (call_listeners ls c ev b w)).
Proof.
intros Hev. induction ls as [|r rest IH]; intros b w Hs H.
- cbn in *. destruct H as [H|H]; [exact H|discriminate].
- cbn [call_listeners existsb] in *.
  destruct (registered c (event_name ev) r) eqn:Er.
  + assert (Hs' : session_of c0 (this' (listener ev b w)) (world' (listener ev b w))).
    { destruct Hs as [I Hc]. destruct (inv_listener ev b w I) as [I' Hc']; [congruence|].
      split; [exact I'|congruence]. }
    assert (Hev' : S (this' (listener ev b w)) (world' (listener ev b w))).
    { destruct (listener_state ev b w) as [-> ->]. apply Hev, Hs. }
    destruct (result (listener ev b w)) as [a|e|code] eqn:Eh.
    * destruct (bind_continues (listener ev) (fun _ => call_listeners rest c ev) b w a Eh)
        as [-> ->].
      apply IH; [exact Hs'|]. left. exact Hev'.
    * destruct (bind_stops (listener ev) (fun _ => call_listeners rest c ev) b w)
        as [-> ->]; [congruence|]. exact Hev'.
    * destruct (bind_stops (listener ev) (fun _ => call_listeners rest c ev) b w)
        as [-> ->]; [congruence|]. exact Hev'.
  + destruct (bind_continues (ret tt) (fun _ => call_listeners rest c ev) b w tt eq_refl)
      as [-> ->].
    apply IH; [exact Hs|].
    destruct H as [H|H]; [left; exact H|right; exact H].
Qed.

Lemma registered_In c name ls :
In (c, name) ls -> existsb (registered c name) ls = true.
Proof.
intros H. apply existsb_exists. exists (c, name). split; [exact H|].
unfold registered. cbn. rewrite Nat.eqb_refl, String.eqb_refl. reflexivity.
Qed.

Lemma emits_ready_settles b w c :
reachable b w -> client b = Some c ->
settled (after (Emits c EvReady) b w).1 (after (Emits c EvReady) b w).2.
Proof.
intros Hr Hc. pose proof (reachable_inv b w Hr) as I.
unfold after. cbn [fst snd action]. unfold emits. js_unfold. cbn.
pose proof (call_listeners_establishes c c EvReady settled
              (handler_ready_settles c) (listeners w) b w (conj I Hc)) as H.
destruct (call_listeners _ _ _ _ _); cbn in *. apply H. right.
apply registered_In. destruct I as (_ & _ & I3). apply (I3 c Hc).
Qed.

Lemma emits_disconnected_clears b w c reason :
reachable b w -> client b = Some c ->
isReady (after (Emits c (EvDisconnected reason)) b w).1 = false.
Proof.
intros Hr Hc. pose proof (reachable_inv b w Hr) as I.
unfold after. cbn [fst snd action]. unfold emits. js_unfold. cbn.
pose proof (call_listeners_establishes c c (EvDisconnected reason)
              (fun b _ => isReady b = false)
              (fun b w _ => proj1 (handler_disconnected_state reason b w))
              (listeners w) b w (conj I Hc)) as H.
destruct (call_listeners _ _ _ _ _); cbn in *. apply H. right.
apply registered_In. destruct I as (_ & _ & I3). apply (I3 c Hc).
Qed.

Lemma call_listeners_keeps_unready ls c ev :
ev <> EvReady ->
post (fun b _ => isReady b = false) (call_listeners ls c ev)
     (fun b _ => isReady b = false).
Proof.
intros Hne. induction ls as [|r rest IH]; [apply post_ret|].
cbn [call_listeners].
eapply post_bind; [|intros t w H; exact H|intros _; exact IH].
intros b w Hb. destruct (registered c (event_name ev) r); [|exact Hb].
destruct (listener_state ev b w) as [-> _].
destruct ev; try congruence.
5:{ apply (proj1 (handler_disconnected_state reason b w)). }
all: match goal with |- context [handler ?e ?b0 ?w0] =>
       destruct (handler_other_state e b0 w0) as [-> _];
       [discriminate | intros; discriminate | exact Hb] end.
Qed.

Lemma ready_set_only_by l b w :
isReady b = false -> isReady (after l b w).1 = true ->
(exists h, l = TimeoutFires h) \/ (exists c, l = Emits c EvReady).
Proof.
intros Hb Ha. unfold after in Ha. cbn [fst] in Ha.
destruct l; cbn [action] in Ha.
- destruct (bind_ret_state initialize_call b w) as [E0 _]. rewrite E0 in Ha.
  destruct (initialize_call_state b w) as (_ & E & _). rewrite E in Ha. cbn in Ha.
  congruence.
- unfold bind in Ha. destruct (sendMessage_state number message b w) as [E _].
  destruct (sendMessage number message b w) as [[] ? ? ?]; cbn in *; congruence.
- destruct (destroy_state b w) as (E & _). rewrite E in Ha. congruence.
- cbn in Ha. congruence.
- left. eauto.
- right. exists c.
  destruct ev; try reflexivity; exfalso.
  all: unfold emits in Ha; revert Ha; js_unfold; cbn.
  all: match goal with |- context [call_listeners ?ls ?c ?e ?b0 ?w0] =>
         pose proof (call_listeners_keeps_unready ls c e ltac:(discriminate) b0 w0 Hb) as H;
         destruct (call_listeners ls c e b0 w0); cbn in *; congruence end.
- cbn in Ha. congruence.
- cbn in Ha. congruence.
Qed.

End EventLoop.

(** ** What runs while [initialize] waits *)

Section Waiting.
Import WhatsAppBot Lifecycle.

Lemma bind_run {T A B} (m : M T A) (k : A -> M T B) t w :
  bind m k t w =
  match result (m t w) with
  | Val a =>
      mkRun (result (k a (this' (m t w)) (world' (m t w))))
            (this' (k a (this' (m t w)) (world' (m t w))))
            (world' (k a (this' (m t w)) (world' (m t w))))
            (effects (m t w) ++ effects (k a (this' (m t w)) (world' (m t w))))
  | Err v => mkRun (Err v) (this' (m t w)) (world' (m t w)) (effects (m t w))
  | Exit c => mkRun (Exit c) (this' (m t w)) (world' (m t w)) (effects (m t w))
  end.
Proof.
  unfold bind. destruct (m t w) as [[a|v|c] t1 w1 evs1]; cbn; [|reflexivity..].
  destruct (k a t1 w1); reflexivity.
Qed.

Lemma frame_ret {A} (a : A) : callback_frame (ret a).
Proof.
  intros b w. cbn. repeat split; try discriminate; try lia. constructor.
Qed.

Lemma frame_bind {A B} (m : M t A) (k : A -> M t B) :
  callback_frame m -> (forall a, callback_frame (k a)) -> callback_frame (bind m k).
Proof.
  intros Hm Hk b w. cbv zeta. rewrite bind_run.
  destruct (Hm b w) as (M1 & M2 & (M3 & M4 & M5) & M6 & M7 & M8 & M9 & M10 & M11).
  destruct (result (m b w)) as [a|v|c] eqn:Er; cbn.
  - destruct (Hk a (this' (m b w)) (world' (m b w)))
      as (K1 & K2 & (K3 & K4 & K5) & K6 & K7 & K8 & K9 & K10 & K11).
    split; [exact K1|]. split; [apply Forall_app_2; assumption|].
    unfold same_sessions. repeat split; try congruence. lia.
  - split; [discriminate|]. split; [exact M2|]. unfold same_sessions. auto 10.
  - destruct (M1 c eq_refl).
Qed.

Lemma frame_detached {A} (m : M t A) : callback_frame m -> callback_frame (detached m).
Proof.
  intros Hm b w. cbv zeta.
  destruct (Hm b w) as (M1 & M2 & M3 & M4 & M5 & M6 & M7 & M8 & M9).
  unfold detached. destruct (m b w) as [[a|v|c] t1 w1 evs1]; cbn in *.
  - split; [discriminate|]. split; [exact M2|]. auto 10.
  - split; [discriminate|]. split; [|auto 10].
    apply Forall_app_2; [exact M2|]. repeat constructor.
  - destruct (M1 c eq_refl).
Qed.

Lemma frame_handler ev : callback_frame (handler ev).
Proof.
  intros b w. cbv zeta. unfold same_sessions. destruct ev.
  2:{ unfold handler, client_listenerCount, this_client, set_isReady, set_initTimeout,
        clearTimeout. js_unfold. js_step.
      destruct (initTimeout b) as [h|]; js_step.
      all: destruct (client b) as [c|]; js_step.
      all: repeat split; try discriminate; try lia; callbacks. }
  4:{ unfold handler. js_unfold.
      destruct (handleMessage_state b w message) as (H1 & H2 & H3 & H4 & _).
      cbn. destruct (handleMessage message b w) as [[[]|v|c] b1 w1 evs1]; cbn in *; subst.
      all: repeat split; try discriminate; try lia; try (constructor; [reflexivity|exact H4]).
      destruct (H3 c eq_refl). }
  all: js_step; repeat split; try discriminate; try lia; callbacks.
Qed.

Lemma frame_listener ev : callback_frame (listener ev).
Proof.
  destruct ev; try apply frame_handler. apply frame_detached, frame_handler.
Qed.

Lemma frame_call_listeners ls c ev : callback_frame (call_listeners ls c ev).
Proof.
  induction ls as [|r rest IH]; [apply frame_ret|].
  cbn [call_listeners]. apply frame_bind; [|intros _; exact IH].
  destruct (registered c (event_name ev) r); [apply frame_listener|apply frame_ret].
Qed.

Lemma frame_emits c ev : callback_frame (emits c ev).
Proof.
  intros b w. unfold emits. js_unfold. cbn.
  pose proof (frame_call_listeners (listeners w) c ev b w) as H. cbv zeta in H.
  destruct (call_listeners (listeners w) c ev b w); exact H.
Qed.

Lemma frame_fires h : callback_frame (fires h).
Proof.
  intros b w. cbv zeta. unfold same_sessions.
  unfold fires, onInitTimeout, forceReady, client_listenerCount, this_client, set_isReady.
  js_unfold. js_step.
  destruct (isReady b); js_step.
  2: destruct (client b) as [c|]; js_step.
  all: repeat split; try discriminate; try lia; callbacks.
Qed.

Lemma happen_fires h b w :
  happen (Fires h) b w = if due h w then detached (fires h) b w else mkRun (Val tt) b w [].
Proof.
  cbn [happen]. unfold bind, get_world.
  destruct (due h w); [|reflexivity].
  destruct (detached (fires h) b w); reflexivity.
Qed.

Lemma frame_happen x : callback_frame (happen x).
Proof.
  destruct x as [dt|h|c ev].
  - intros b w. cbv zeta. unfold same_sessions. cbn [happen].
    destruct (0 <=? dt) eqn:E; js_step.
    all: repeat split; try discriminate; try lia; callbacks.
  - intros b w. cbv zeta. rewrite happen_fires.
    destruct (due h w).
    + apply (frame_detached _ (frame_fires h) b w).
    + apply (frame_ret tt b w).
  - cbn [happen]. apply frame_detached, frame_emits.
Qed.

Lemma frame_happenings xs : callback_frame (happenings xs).
Proof.
  induction xs as [|x rest IH]; [apply frame_ret|].
  cbn [happenings]. apply frame_bind; [apply frame_happen|intros _; exact IH].
Qed.

(** The callbacks of the event loop have no caller: whatever they do,
    nothing is thrown to the code that waits. *)
Lemma happen_result x b w : result (happen x b w) = Val tt.
Proof.
  destruct x as [dt|h|c ev].
  - cbn [happen]. destruct (0 <=? dt); reflexivity.
  - rewrite happen_fires. destruct (due h w); [|reflexivity].
    apply detached_result. apply (frame_fires h).
  - cbn [happen]. apply detached_result. apply (frame_emits c ev).
Qed.

Lemma happenings_result xs b w : result (happenings xs b w) = Val tt.
Proof.
  revert b w. induction xs as [|x rest IH]; intros b w; [reflexivity|].
  cbn [happenings]. rewrite bind_run, happen_result. cbn. apply IH.
Qed.




(** No event of a callback registers a listener, creates a session, arms a
    timeout or belongs to the entry point. *)
Lemma callback_effects evs :
  Forall (fun e => of_callback e = true) evs ->
  registrations evs = [] /\ timeouts_armed evs = [] /\ constructions evs = [] /\
  listens evs = [] /\ session_destroys evs = [] /\ transport_sends evs = [] /\
  exits evs = [].
Proof.
  induction 1 as [|e evs He _ IH]; [cbn; auto 10|].
  destruct IH as (I1 & I2 & I3 & I4 & I5 & I6 & I7).
  unfold registrations, timeouts_armed, constructions, listens, session_destroys,
    transport_sends, exits in *.
  destruct e; try discriminate He; cbn; auto 10.
Qed.

(** [initialize], in two parts: the call, then what happens while it is
    pending; the way the promise settles changes nothing but the result. *)
Lemma initialize_run b w :
  let s := initialize_call b w in
  let wait := happenings (Transport.initializing (web w) (fresh w)) (this' s) (world' s) in
  initialize b w =
  mkRun (match Transport.initialize (web w) (fresh w) with
         | Returned _ => Val tt
         | Thrown v => Err v
         end)
        (this' wait) (world' wait) (effects s ++ effects wait).
Proof.
  cbv zeta. unfold initialize.
  destruct (initialize_call_state b w) as (Hres & _ & _ & _ & _ & _ & _ & _ & Hweb & _).
  rewrite bind_run, Hres. cbn [result this' world' effects].
  remember (this' (initialize_call b w)) as b1 eqn:Eb.
  remember (world' (initialize_call b w)) as w1 eqn:Ew.
  remember (effects (initialize_call b w)) as evs1 eqn:Ee.
  assert (E : (w0 <- get_world ;;
               happenings (Transport.initializing (web w0) (fresh w)) ;;
               settle (Transport.initialize (web w0) (fresh w))) b1 w1
              = mkRun (match Transport.initialize (web w) (fresh w) with
                       | Returned _ => Val tt
                       | Thrown v => Err v
                       end)
                      (this' (happenings (Transport.initializing (web w) (fresh w)) b1 w1))
                      (world' (happenings (Transport.initializing (web w) (fresh w)) b1 w1))
                      (effects (happenings (Transport.initializing (web w) (fresh w))
                                  b1 w1))).
  { unfold bind at 1, get_world. rewrite Hweb.
    pose proof (happenings_result (Transport.initializing (web w) (fresh w)) b1 w1) as Hh.
    unfold bind.
    destruct (happenings (Transport.initializing (web w) (fresh w)) b1 w1)
      as [rh bh wh evsh].
    cbn in Hh. subst rh. cbn.
    destruct (Transport.initialize (web w) (fresh w)) as [[]|v]; cbn;
      rewrite ?app_nil_r; reflexivity. }
  rewrite E. reflexivity.
Qed.

End Waiting.

(** ** Sending *)

(** C5. Whenever the ready flag is false, [sendMessage] returns false, for
    every number and text, and [client.sendMessage] is not called: the only
    effect is the console line that reports the error. *)
Theorem sendMessage_not_ready
    (bot : WhatsAppBot.t) (w : World) (number message : string) :
  WhatsAppBot.isReady bot = false ->
  let r := WhatsAppBot.sendMessage number message bot w in
  result r = Val false /\
  transport_sends (effects r) = [] /\
  effects r = [ConsoleError [AStr "❌ Erro ao enviar mensagem:";
                             AErr (new_Error "WhatsApp Bot não está pronto")]].
Proof.
  intros Hr. cbv zeta. unfold WhatsAppBot.sendMessage. js_unfold. js_step.
  rewrite Hr. js_step. auto.
Qed.

Lemma sendMessage_not_ready_witness :
  WhatsAppBot.isReady Scenario.bot0 = false /\
  result (WhatsAppBot.sendMessage "5511999990000" "Oi" Scenario.bot0 Scenario.world0)
    = Val false /\
  transport_sends
    (effects (WhatsAppBot.sendMessage "5511999990000" "Oi" Scenario.bot0
                Scenario.world0)) = [].
Proof.
  split; [reflexivity|].
  destruct (sendMessage_not_ready Scenario.bot0 Scenario.world0 "5511999990000" "Oi"
              eq_refl) as (Hres & Hsends & _).
  split; [exact Hres|exact Hsends].
Defined.

(** C10. In every state the bot can reach, when the ready flag is true
    [sendMessage] calls [client.sendMessage] once, on the bot's session, with
    the chat id equal to [number] if '@c.us' occurs in it and to [number]
    followed by '@c.us' otherwise; it returns true when that call returns and
    false, without throwing, when it throws. *)
Theorem sendMessage_ready_chat_id
    (bot : WhatsAppBot.t) (w : World) (number message : string) :
  Lifecycle.reachable bot w ->
  WhatsAppBot.isReady bot = true ->
  let r := WhatsAppBot.sendMessage number message bot w in
  exists c chatId,
    WhatsAppBot.client bot = Some c /\
    transport_sends (effects r) = [(c, chatId, message)] /\
    (contains number "@c.us" -> chatId = number) /\
    (~ contains number "@c.us" -> chatId = number +:+ "@c.us") /\
    match Transport.sendMessage (web w) c chatId message with
    | Returned _ => result r = Val true
    | Thrown _ => result r = Val false
    end.
Proof.
  intros Hreach Hready.
  destruct (reachable_ready_session bot w Hreach Hready) as [c Hc].
  exists c, (if includes number "@c.us" then number else number +:+ "@c.us").
  split; [exact Hc|].
  assert (Hid : (contains number "@c.us" ->
                 (if includes number "@c.us" then number else number +:+ "@c.us")
                 = number) /\
                (~ contains number "@c.us" ->
                 (if includes number "@c.us" then number else number +:+ "@c.us")
                 = number +:+ "@c.us")).
  { destruct (includes number "@c.us") eqn:E.
    - split; [reflexivity|]. intros H. destruct H. apply includes_spec, E.
    - split; [|reflexivity]. intros H. apply includes_spec in H. congruence. }
  cbv zeta. unfold WhatsAppBot.sendMessage, WhatsAppBot.this_client. js_unfold. js_step.
  rewrite Hready. js_step. rewrite Hc. js_step.
  destruct (Transport.sendMessage (web w) c _ message) as [[]|e]; js_step.
  all: split; [reflexivity|]; split; [apply Hid|]; split; [apply Hid|reflexivity].
Qed.

Lemma sendMessage_ready_chat_id_witness :
  Lifecycle.reachable Scenario.ready.1 Scenario.ready.2 /\
  WhatsAppBot.isReady Scenario.ready.1 = true /\
  transport_sends
    (effects (WhatsAppBot.sendMessage "5511999990000" "Oi" Scenario.ready.1
                Scenario.ready.2))
    = [(0%nat, "5511999990000@c.us", "Oi")] /\
  transport_sends
    (effects (WhatsAppBot.sendMessage "5511999990000@c.us" "Oi" Scenario.ready.1
                Scenario.ready.2))
    = [(0%nat, "5511999990000@c.us", "Oi")] /\
  result (WhatsAppBot.sendMessage "5511999990000" "Oi" Scenario.ready.1 Scenario.ready.2)
    = Val true.
Proof.
  assert (Hreach : Lifecycle.reachable Scenario.ready.1 Scenario.ready.2).
  { apply (Lifecycle.reachable_step (Lifecycle.Emits 0 EvReady));
      [|reflexivity].
    apply (Lifecycle.reachable_step Lifecycle.CallInitialize); [|reflexivity].
    apply Lifecycle.reachable_new; reflexivity. }
  assert (Hready : WhatsAppBot.isReady Scenario.ready.1 = true) by reflexivity.
  split; [exact Hreach|]. split; [exact Hready|].
  destruct (sendMessage_ready_chat_id Scenario.ready.1 Scenario.ready.2
              "5511999990000" "Oi" Hreach Hready)
    as (c & chatId & Hc & Hsends & _ & Hplain & Hres).
  destruct (sendMessage_ready_chat_id Scenario.ready.1 Scenario.ready.2
              "5511999990000@c.us" "Oi" Hreach Hready)
    as (c' & chatId' & Hc' & Hsends' & Hfull & _ & _).
  assert (Hno : ~ contains "5511999990000" "@c.us").
  { intros H. apply includes_spec in H. discriminate H. }
  assert (Hyes : contains "5511999990000@c.us" "@c.us").
  { apply includes_spec. reflexivity. }
  rewrite (Hplain Hno) in Hsends, Hres. rewrite (Hfull Hyes) in Hsends'.
  injection Hc as <-. injection Hc' as <-.
  split; [exact Hsends|]. split; [exact Hsends'|]. exact Hres.
Defined.

(** ** Callbacks and the readiness flag *)

(** C9 (as amended). [initialize] registers exactly eight event callbacks on
    the session object it creates, through [setupEventHandlers]: one each
    for 'qr', 'ready', 'authenticated', 'loading_screen', 'message',
    'disconnected', 'auth_failure' and 'error'. *)
Theorem initialize_registers_eight_callbacks (bot : WhatsAppBot.t) (w : World) :
  let r := WhatsAppBot.initialize bot w in
  WhatsAppBot.client (this' r) = Some (fresh w) /\
  registrations (effects r) = map (pair (fresh w)) callback_events /\
  length (registrations (effects r)) = 8%nat /\
  listeners (world' r) = (listeners w ++ map (pair (fresh w)) callback_events)%list.
Proof.
  pose proof (initialize_run bot w) as E. cbv zeta in E. cbv zeta. rewrite E.
  cbn [this' world' effects].
  destruct (initialize_call_state bot w) as (_ & Hb & _ & Hl & Hreg & _).
  destruct (frame_happenings (Transport.initializing (web w) (fresh w))
              (this' (WhatsAppBot.initialize_call bot w))
              (world' (WhatsAppBot.initialize_call bot w)))
    as (_ & Hcb & (Hc & Hls & _) & _).
  destruct (callback_effects _ Hcb) as (Hnone & _).
  assert (Hregs : registrations
                    (effects (WhatsAppBot.initialize_call bot w) ++
                     effects (WhatsAppBot.happenings
                                (Transport.initializing (web w) (fresh w))
                                (this' (WhatsAppBot.initialize_call bot w))
                                (world' (WhatsAppBot.initialize_call bot w))))
                  = map (pair (fresh w)) callback_events).
  { unfold registrations in *. rewrite omap_app, Hreg, Hnone. apply app_nil_r. }
  rewrite Hregs, Hc, Hls, Hb, Hl. repeat split; reflexivity.
Qed.

(** C9 as the specification states it, with six callbacks, fails on every
    run of [initialize]; here on the bot of the scenario. *)
Lemma initialize_does_not_register_six :
  length (registrations
            (effects (WhatsAppBot.initialize Scenario.bot0 Scenario.world0)))
  <> 6%nat.
Proof. vm_compute. discriminate. Qed.

(** While [initialize] waits, the flag goes up only by a timeout or a
    'ready' event. *)
Lemma happen_keeps_unready (x : Happening) :
  raises_flag x = false ->
  post (fun b _ => WhatsAppBot.isReady b = false) (WhatsAppBot.happen x)
       (fun b _ => WhatsAppBot.isReady b = false).
Proof.
  intros Hx b w Hb. destruct x as [dt|h|c ev]; [|discriminate Hx|].
  - cbn [WhatsAppBot.happen]. destruct (0 <=? dt); exact Hb.
  - cbn [WhatsAppBot.happen].
    destruct (detached_state (WhatsAppBot.emits c ev) b w) as [-> _].
    unfold WhatsAppBot.emits. js_unfold. cbn.
    assert (Hev : ev <> EvReady) by (intros ->; discriminate Hx).
    pose proof (call_listeners_keeps_unready (listeners w) c ev Hev b w Hb) as H.
    destruct (WhatsAppBot.call_listeners _ _ _ _ _); exact H.
Qed.

Lemma happenings_keep_unready (xs : list Happening) :
  Forall (fun x => raises_flag x = false) xs ->
  post (fun b _ => WhatsAppBot.isReady b = false) (WhatsAppBot.happenings xs)
       (fun b _ => WhatsAppBot.isReady b = false).
Proof.
  induction 1 as [|x rest Hx _ IH]; [apply post_ret|].
  cbn [WhatsAppBot.happenings].
  eapply post_bind; [apply happen_keeps_unready, Hx|intros t w H; exact H|intros _; exact IH].
Qed.

Lemma initialize_raises_flag (b : WhatsAppBot.t) (w : World) :
  WhatsAppBot.isReady b = false ->
  WhatsAppBot.isReady (this' (WhatsAppBot.initialize b w)) = true ->
  exists x, In x (Transport.initializing (web w) (fresh w)) /\
            ((exists h, x = Fires h) \/ (exists c, x = Emitted c EvReady)).
Proof.
  intros Hb Hup.
  pose proof (initialize_run b w) as E. cbv zeta in E. rewrite E in Hup.
  cbn [this'] in Hup.
  destruct (initialize_call_state b w) as (_ & Hs & _).
  destruct (existsb raises_flag (Transport.initializing (web w) (fresh w))) eqn:Ex.
  - apply existsb_exists in Ex as (x & Hin & Hx). exists x. split; [exact Hin|].
    destruct x as [dt|h|c ev]; [discriminate Hx|eauto|].
    destruct ev; try discriminate Hx. eauto.
  - exfalso.
    assert (Hall : Forall (fun x => raises_flag x = false)
                          (Transport.initializing (web w) (fresh w))).
    { apply Forall_forall. intros x Hin.
      destruct (raises_flag x) eqn:Hx; [|reflexivity].
      assert (existsb raises_flag (Transport.initializing (web w) (fresh w)) = true)
        by (apply existsb_exists; exists x; split; [apply list_elem_of_In|]; assumption).
      congruence. }
    assert (H1 : WhatsAppBot.isReady (this' (WhatsAppBot.initialize_call b w)) = false)
      by (rewrite Hs; exact Hb).
    pose proof (happenings_keep_unready _ Hall
                  (this' (WhatsAppBot.initialize_call b w))
                  (world' (WhatsAppBot.initialize_call b w)) H1) as H.
    cbn beta in H. congruence.
Qed.

(** C6. The life of the ready flag.
    - [initialize] arms one timeout of 45000 ms and no other: when it calls
      [client.initialize()] and starts to wait, the timeout is kept in
      [initTimeout] and is due 45 seconds after the call of [initialize]; it
      cannot fire earlier. What [initialize] leaves behind is what the turns
      of the event loop that ran while it waited made of that state.
    - When that timeout fires, the flag is true afterwards.
    - The 'ready' callback sets the flag to true and cancels the timeout;
      after the library emits 'ready' on the bot's session no timeout is
      pending, so the fallback only fires when 'ready' has not come first.
    - The 'disconnected' callback sets the flag to false.
    - No other turn of the event loop sets the flag to true, and when the
      flag went up during a call of [initialize], a timeout or a 'ready'
      event came while it waited. *)
Theorem readiness_flag_lifecycle :
  (forall b w,
     let r := WhatsAppBot.initialize b w in
     let s := Lifecycle.after Lifecycle.CallInitialize b w in
     exists h,
       timeouts_armed (effects r) = [(h, 45000)] /\
       WhatsAppBot.initTimeout s.1 = Some h /\
       timers s.2 !! h = Some (now w + 45000) /\
       this' r = this' (WhatsAppBot.happenings
                          (Transport.initializing (web w) (fresh w)) s.1 s.2) /\
       world' r = world' (WhatsAppBot.happenings
                            (Transport.initializing (web w) (fresh w)) s.1 s.2) /\
       forall w', timers w' !! h = Some (now w + 45000) ->
                  Lifecycle.enabled (Lifecycle.TimeoutFires h) w' = true ->
                  now w + 45000 <= now w') /\
  (forall h b w,
     WhatsAppBot.isReady (Lifecycle.after (Lifecycle.TimeoutFires h) b w).1 = true) /\
  (forall b w,
     let r := WhatsAppBot.handler EvReady b w in
     WhatsAppBot.isReady (this' r) = true /\
     WhatsAppBot.initTimeout (this' r) = None /\
     forall h, WhatsAppBot.initTimeout b = Some h -> timers (world' r) !! h = None) /\
  (forall b w c,
     Lifecycle.reachable b w -> WhatsAppBot.client b = Some c ->
     let s := Lifecycle.after (Lifecycle.Emits c EvReady) b w in
     WhatsAppBot.isReady s.1 = true /\ timers s.2 = ∅) /\
  (forall b w reason,
     WhatsAppBot.isReady
       (this' (WhatsAppBot.handler (EvDisconnected reason) b w)) = false) /\
  (forall b w c reason,
     Lifecycle.reachable b w -> WhatsAppBot.client b = Some c ->
     WhatsAppBot.isReady
       (Lifecycle.after (Lifecycle.Emits c (EvDisconnected reason)) b w).1
     = false) /\
  (forall l b w,
     WhatsAppBot.isReady b = false ->
     WhatsAppBot.isReady (Lifecycle.after l b w).1 = true ->
     (exists h, l = Lifecycle.TimeoutFires h) \/
     (exists c, l = Lifecycle.Emits c EvReady)) /\
  (forall b w,
     WhatsAppBot.isReady b = false ->
     WhatsAppBot.isReady (this' (WhatsAppBot.initialize b w)) = true ->
     exists x, In x (Transport.initializing (web w) (fresh w)) /\
               ((exists h, x = Fires h) \/ (exists c, x = Emitted c EvReady))).
Proof.
  split; [|split; [|split; [|split; [|split; [|split; [|split]]]]]].
  8:{ intros b w Hb Hup. apply (initialize_raises_flag b w Hb Hup). }
  - intros b w r s. subst r s.
    pose proof (initialize_run b w) as E. cbv zeta in E. rewrite E.
    cbn [this' world' effects]. unfold Lifecycle.after. cbn [fst snd Lifecycle.action].
    destruct (bind_ret_state WhatsAppBot.initialize_call b w) as [-> ->].
    destruct (initialize_call_state b w) as (_ & Hb & Ht & _ & _ & Harm & _).
    destruct (frame_happenings (Transport.initializing (web w) (fresh w))
                (this' (WhatsAppBot.initialize_call b w))
                (world' (WhatsAppBot.initialize_call b w)))
      as (_ & Hcb & _).
    destruct (callback_effects _ Hcb) as (_ & Hnone & _).
    exists (S (fresh w)). split.
    { unfold timeouts_armed in *. rewrite omap_app, Harm, Hnone. reflexivity. }
    split; [rewrite Hb; reflexivity|].
    split; [rewrite Ht; apply lookup_insert_eq|].
    split; [reflexivity|]. split; [reflexivity|].
    intros w' Hdue Hen. cbn in Hen. unfold WhatsAppBot.due in Hen.
    rewrite Hdue in Hen. lia.
  - intros h b w. apply fires_state.
  - intros b w r. subst r.
    destruct (handler_ready_state b w) as (Hr & _ & Hi & Ht & _).
    split; [exact Hr|]. split; [exact Hi|].
    intros h Hh. rewrite Ht, Hh. apply lookup_delete_eq.
  - intros b w c Hreach Hc s. subst s.
    destruct (emits_ready_settles b w c Hreach Hc) as (Hr & _ & Ht). auto.
  - intros b w reason. apply handler_disconnected_state.
  - intros b w c reason. apply emits_disconnected_clears.
  - intros l b w. apply ready_set_only_by.
Qed.

Lemma readiness_flag_lifecycle_witness :
  (* the timeout armed by [initialize] at 1000 is due at 46000 *)
  timers Scenario.started.2 !! 1%nat = Some 46000 /\
  Lifecycle.enabled (Lifecycle.TimeoutFires 1) Scenario.waited.2 = true /\
  now Scenario.world0 + 45000 <= now Scenario.waited.2 /\
  (* 'ready' on session 0 of the started bot *)
  Lifecycle.reachable Scenario.started.1 Scenario.started.2 /\
  WhatsAppBot.client Scenario.started.1 = Some 0%nat /\
  WhatsAppBot.isReady Scenario.ready.1 = true /\
  timers Scenario.ready.2 = ∅ /\
  (* 'disconnected' after it *)
  WhatsAppBot.isReady
    (Lifecycle.after (Lifecycle.Emits 0 (EvDisconnected "LOGOUT"))
       Scenario.ready.1 Scenario.ready.2).1 = false /\
  (* the flag of the started bot went up by the 'ready' event *)
  WhatsAppBot.isReady Scenario.started.1 = false /\
  ((exists h, Lifecycle.Emits 0 EvReady = Lifecycle.TimeoutFires h) \/
   (exists c, Lifecycle.Emits 0 EvReady
              = Lifecycle.Emits c EvReady)).
Proof.
  destruct readiness_flag_lifecycle
    as (Harm & _ & Hcb & Hready & _ & Hdisc & Honly & _).
  assert (Hstarted : Lifecycle.reachable Scenario.started.1 Scenario.started.2).
  { apply (Lifecycle.reachable_step Lifecycle.CallInitialize); [|reflexivity].
    apply Lifecycle.reachable_new; reflexivity. }
  assert (Hisready : Lifecycle.reachable Scenario.ready.1 Scenario.ready.2).
  { apply (Lifecycle.reachable_step (Lifecycle.Emits 0 EvReady));
      [exact Hstarted|reflexivity]. }
  destruct (Harm Scenario.bot0 Scenario.world0) as (h & Harmed & _ & Hdue & _ & _ & Hlate).
  injection Harmed as <-.
  split; [exact Hdue|]. split; [reflexivity|].
  split; [exact (Hlate Scenario.waited.2 eq_refl eq_refl)|].
  split; [exact Hstarted|]. split; [reflexivity|].
  destruct (Hready Scenario.started.1 Scenario.started.2 0%nat Hstarted eq_refl)
    as [Hup Hnone].
  split; [exact Hup|]. split; [exact Hnone|].
  split; [exact (Hdisc Scenario.ready.1 Scenario.ready.2 0%nat "LOGOUT" Hisready
                   eq_refl)|].
  split; [reflexivity|].
  exact (Honly (Lifecycle.Emits 0 EvReady)
               Scenario.started.1 Scenario.started.2 eq_refl Hup).
Defined.

(** ** The entry point *)

Section EntryPoint.
Import WhatsAppAISystem.

(** What [WhatsAppBot.initialize] leaves of the process, whatever happens
    while it waits. *)
Lemma bot_initialize_facts b w :
  let r := WhatsAppBot.initialize b w in
  result r = match Transport.initialize (web w) (fresh w) with
             | Returned _ => Val tt
             | Thrown v => Err v
             end /\
  constructions (effects r) = [] /\ listens (effects r) = [] /\
  exits (effects r) = [] /\
  systemRunning (world' r) = systemRunning w /\ env (world' r) = env w /\
  WhatsAppBot.client (this' r) = Some (fresh w) /\
  WhatsAppBot.aiAgent (this' r) = WhatsAppBot.aiAgent b /\
  WhatsAppBot.responseFormatter (this' r) = WhatsAppBot.responseFormatter b.
Proof.
  pose proof (initialize_run b w) as E. cbv zeta in E. cbv zeta. rewrite E.
  cbn [result this' world' effects].
  destruct (initialize_call_state b w)
    as (_ & Hb & _ & _ & _ & _ & _ & _ & _ & Henv & Hrun & Hcon & Hlis & Hex).
  destruct (frame_happenings (Transport.initializing (web w) (fresh w))
              (this' (WhatsAppBot.initialize_call b w))
              (world' (WhatsAppBot.initialize_call b w)))
    as (_ & Hcb & (Hc & _) & _ & Henv' & Hrun' & _ & Hag & Hfo).
  destruct (callback_effects _ Hcb) as (_ & _ & Hcon' & Hlis' & _ & _ & Hex').
  unfold constructions, listens, exits in *.
  rewrite !omap_app, Hcon, Hlis, Hex, Hcon', Hlis', Hex', Hrun', Henv', Hc, Hag, Hfo.
  rewrite Hb. cbn. auto 10.
Qed.

Lemma initialize_body_result deps s w :
  result (initialize_body deps s w) =
  if (0 <? length (List.filter (fun v => negb (truthy (env w !! v))) required))%nat
  then Err (new_Error ("Variáveis obrigatórias não configuradas: "
                         +:+ String.concat ", "
                               (List.filter (fun v => negb (truthy (env w !! v))) required)))
  else
    match Deps.new_ResponseFormatter deps with
    | Thrown e => Err e
    | Returned _ =>
        match Deps.new_SupabaseExecutor deps with
        | Thrown e => Err e
        | Returned ex =>
            match Deps.new_MultiAgentSystem deps ex with
            | Thrown e => Err e
            | Returned _ =>
                match Executor.testConnection ex with
                | Thrown e => Err e
                | Returned _ =>
                    match Transport.initialize (web w) (fresh w) with
                    | Thrown e => Err e
                    | Returned _ =>
                        match Deps.app_listen deps (port s) with
                        | Thrown e => Err e
                        | Returned _ => Val tt
                        end
                    end
                end
            end
        end
    end.
Proof.
  unfold initialize_body, this_whatsappBot, on_field, set_responseFormatter,
    set_supabaseExecutor, set_aiAgent, set_whatsappBot.
  js_unfold. sys_step.
  match goal with |- context [Nat.ltb 0 ?n] => destruct (Nat.ltb 0 n) end;
    sys_step; [reflexivity|].
  destruct (Deps.new_ResponseFormatter deps) as [f|]; sys_step; [|reflexivity].
  destruct (Deps.new_SupabaseExecutor deps) as [ex|]; sys_step; [|reflexivity].
  destruct (Deps.new_MultiAgentSystem deps ex) as [a|]; sys_step; [|reflexivity].
  destruct (Executor.testConnection ex) as [[]|]; sys_step; [|reflexivity].
  match goal with |- context [WhatsAppBot.initialize ?b ?w0] =>
    pose proof (bot_initialize_facts b w0) as Hb;
    destruct (WhatsAppBot.initialize b w0) as [rb b' w' evs] end.
  cbv zeta in Hb. cbn in Hb. destruct Hb as (-> & _).
  destruct (Transport.initialize (web w) (fresh w)) as [[]|]; sys_step; [|reflexivity].
  destruct (Deps.app_listen deps (port s)) as [[]|]; sys_step; reflexivity.
Qed.

(** The [try] block of [initialize] never exits and leaves
    [global.systemRunning] as it is. *)
Lemma initialize_body_facts deps s w :
  exits (effects (initialize_body deps s w)) = [] /\
  systemRunning (world' (initialize_body deps s w)) = systemRunning w.
Proof.
  unfold initialize_body, this_whatsappBot, on_field, set_responseFormatter,
    set_supabaseExecutor, set_aiAgent, set_whatsappBot.
  js_unfold. sys_step.
  match goal with |- context [Nat.ltb 0 ?n] => destruct (Nat.ltb 0 n) end;
    sys_step; [auto|].
  destruct (Deps.new_ResponseFormatter deps) as [f|]; sys_step; [|auto].
  destruct (Deps.new_SupabaseExecutor deps) as [ex|]; sys_step; [|auto].
  destruct (Deps.new_MultiAgentSystem deps ex) as [a|]; sys_step; [|auto].
  destruct (Executor.testConnection ex) as [[]|]; sys_step; [|auto].
  match goal with |- context [WhatsAppBot.initialize ?b ?w0] =>
    pose proof (bot_initialize_facts b w0) as Hb;
    destruct (WhatsAppBot.initialize b w0) as [rb b' w' evs] end.
  cbv zeta in Hb. cbn in Hb. destruct Hb as (-> & _ & _ & Hex & Hrun & _).
  destruct (Transport.initialize (web w) (fresh w)) as [[]|]; sys_step.
  2:{ unfold exits in *. rewrite ?omap_app, Hex. auto. }
  destruct (Deps.app_listen deps (port s)) as [[]|]; sys_step.
  all: unfold exits in *; rewrite ?omap_app, Hex; auto.
Qed.

Lemma bot_destroy_result b w :
  result (WhatsAppBot.destroy b w) =
  match WhatsAppBot.client b with
  | Some c => match Transport.destroy (web w) c with
              | Returned _ => Val tt
              | Thrown e => Err e
              end
  | None => Val tt
  end.
Proof.
  unfold WhatsAppBot.destroy, clearTimeout. js_unfold. cbn.
  destruct (WhatsAppBot.initTimeout b) as [h|]; cbn.
  all: destruct (WhatsAppBot.client b) as [c|]; cbn; [|reflexivity].
  all: destruct (Transport.destroy _ _) as [[]|]; reflexivity.
Qed.

Lemma shutdown_result s w : result (shutdown s w) = Exit 0.
Proof.
  unfold shutdown, this_whatsappBot, on_field, set_systemRunning. js_unfold. sys_step.
  destruct (whatsappBot s) as [b|] eqn:Eb; sys_step; [|reflexivity].
  rewrite ?Eb. sys_step.
  pose proof (bot_destroy_result b w) as Hb.
  destruct (WhatsAppBot.destroy b w) as [rb b' w' evs]. cbn in Hb. subst rb.
  destruct (WhatsAppBot.client b) as [c|]; [|reflexivity].
  destruct (Transport.destroy (web w) c) as [[]|]; reflexivity.
Qed.

(** What the [catch] block of [initialize] makes of the outcome of the
    [try] block. *)
Lemma initialize_result deps s w :
  let r := initialize deps s w in
  let body := initialize_body deps s w in
  this' r = this' body /\
  match result body with
  | Val _ => result r = Val tt /\ world' r = world' body /\ effects r = effects body
  | Err v =>
      if nullish v
      then result r = Err (cannot_read v "stack") /\
           world' r = world' body /\
           effects r = (effects body ++
                        [ConsoleError [AStr "❌ Erro ao inicializar sistema:"; AErr v]])%list
      else result r = Exit 1 /\
           systemRunning (world' r) = false /\
           effects r = (effects body ++
                        [ConsoleError [AStr "❌ Erro ao inicializar sistema:"; AErr v];
                         ConsoleError [AStr "Stack trace:"; AStack v];
                         ProcessExit 1])%list
  | Exit _ => False
  end.
Proof.
  pose proof (initialize_body_result deps s w) as Hb.
  cbv zeta. unfold initialize, set_systemRunning, process_exit, error_stack. js_unfold.
  destruct (initialize_body deps s w) as [[[]|e|c] s' w' evs]; cbn in *.
  - rewrite ?app_nil_r. auto.
  - destruct (nullish e); cbn; auto.
  - repeat match type of Hb with
           | _ = (if ?c then _ else _) => destruct c
           | _ = match ?c with _ => _ end => destruct c
           end; discriminate.
Qed.

Lemma missing_nonempty w :
  (0 <? length (List.filter (fun v => negb (truthy (env w !! v))) required))%nat = true
  <-> exists v, In v required /\ unset w v.
Proof.
  unfold unset. rewrite Nat.ltb_lt. split.
  - intros H.
    destruct (List.filter (fun v => negb (truthy (env w !! v))) required)
      as [|v rest] eqn:E; [cbn in H; lia|].
    exists v. assert (Hin : In v (v :: rest)) by (left; reflexivity).
    rewrite <- E in Hin. apply filter_In in Hin as [Hin Hv].
    split; [exact Hin|]. apply negb_true_iff, Hv.
  - intros (v & Hin & Hv).
    assert (H : In v (List.filter (fun v => negb (truthy (env w !! v))) required)).
    { apply filter_In. split; [exact Hin|]. apply negb_true_iff, Hv. }
    destruct (List.filter _ required); [destruct H|cbn; lia].
Qed.



Lemma startup_fails_iff deps s w :
  (exists e, result (initialize_body deps s w) = Err e) <-> startup_fails deps s w.
Proof.
  rewrite initialize_body_result. unfold startup_fails.
  destruct (0 <? _)%nat eqn:Em.
  { split; [|eauto]. intros _. left. apply missing_nonempty, Em. }
  assert (Hm : ~ exists v, In v required /\ unset w v).
  { intros H. apply missing_nonempty in H. congruence. }
  destruct (Deps.new_ResponseFormatter deps) as [f|e1]; [|split; eauto 10].
  destruct (Deps.new_SupabaseExecutor deps) as [ex|e2]; [|split; eauto 10].
  destruct (Deps.new_MultiAgentSystem deps ex) as [a|e3] eqn:E3; [|split; eauto 10].
  destruct (Executor.testConnection ex) as [[]|e4] eqn:E4; [|split; eauto 10].
  destruct (Transport.initialize (web w) (fresh w)) as [[]|e5]; [|split; eauto 10].
  destruct (Deps.app_listen deps (port s)) as [[]|e6]; [|split; eauto 10].
  split; [intros [e H]; discriminate|].
  intros [H|[[e H]|[[e H]|[(ex' & e & H1 & H2)|[(ex' & e & H1 & H2)|[[e H]|[e H]]]]]]];
    try contradiction; try discriminate.
  - injection H1 as <-. rewrite E3 in H2. discriminate.
  - injection H1 as <-. rewrite E4 in H2. discriminate.
Qed.

Lemma main_guard deps s w :
  systemRunning w = true ->
  result (main deps s w) = Exit 0 /\
  effects (main deps s w)
    = [DotenvConfig; ConsoleLog [AStr "⚠️ Sistema já está rodando!"]; ProcessExit 0].
Proof.
  intros H. unfold main, dotenv_config, process_exit. js_unfold. sys_step.
  rewrite H. sys_step. auto.
Qed.

(** What the module-level code makes of the outcome of [initialize]: a
    rejection is printed and goes no further. *)
Lemma main_run deps s w :
  systemRunning w = false ->
  let r := initialize deps (constructed deps w) (loaded deps w) in
  result (main deps s w) = match result r with
                           | Err _ => Val tt
                           | other => other
                           end /\
  world' (main deps s w) = world' r /\
  match result r with
  | Err v => last (effects (main deps s w)) = Some (ConsoleError [AErr v])
  | _ => True
  end.
Proof.
  intros H.
  unfold main, dotenv_config, set_systemRunning, constructor, setupMiddleware, setupRoutes.
  js_unfold. sys_step. rewrite H. sys_step.
  match goal with |- context [initialize deps ?s0 ?w0] =>
    change s0 with (constructed deps w); change w0 with (loaded deps w) end.
  destruct (initialize deps (constructed deps w) (loaded deps w)) as [ri s' w' evs].
  destruct ri as [[]|e|c]; cbn; auto.
  split; [reflexivity|]. split; [reflexivity|].
  rewrite !app_comm_cons, last_snoc. reflexivity.
Qed.

End EntryPoint.


(** C7. Every GET /health request is answered, without any other effect,
    by an object [{status: "healthy", whatsapp, supabase, ai}] with three
    boolean fields; the field of a component that has not been constructed
    is false, so all three are false when none has been. *)
Theorem get_health_shape (s : WhatsAppAISystem.t) (w : World) :
  exists whatsapp supabase ai : bool,
    WhatsAppAISystem.on_get "/health" s w
      = mkRun (Val (Some (HealthBody (Health.mk "healthy" whatsapp supabase ai)))) s w []
    /\ (WhatsAppAISystem.whatsappBot s = None -> whatsapp = false)
    /\ (WhatsAppAISystem.supabaseExecutor s = None -> supabase = false)
    /\ (WhatsAppAISystem.aiAgent s = None -> ai = false).
Proof.
  do 3 eexists. split; [reflexivity|].
  split; [|split]; intros ->; reflexivity.
Qed.

Lemma get_health_shape_witness :
  WhatsAppAISystem.whatsappBot Scenario.system0 = None /\
  WhatsAppAISystem.supabaseExecutor Scenario.system0 = None /\
  WhatsAppAISystem.aiAgent Scenario.system0 = None /\
  result (WhatsAppAISystem.on_get "/health" Scenario.system0 Scenario.world0)
    = Val (Some (HealthBody (Health.mk "healthy" false false false))).
Proof.
  repeat (split; [reflexivity|]).
  destruct (get_health_shape Scenario.system0 Scenario.world0)
    as (whatsapp & supabase & ai & E & Hw & Hs & Ha).
  rewrite E, (Hw eq_refl), (Hs eq_refl), (Ha eq_refl). reflexivity.
Defined.




(** * Further properties of the code *)

(** ** The message path, whatever the outside calls do *)

(** X4. [processMessageWithAI] changes nothing in the bot or the world, sends
    no reply and never calls [client.sendMessage]. With an agent set it calls
    [processMessage] exactly once, with the text and a user context whose name
    is the contact's name, or 'Usuário' when the contact has none (or an
    empty one); it calls the formatter once, with the agent's answer, exactly
    when the agent returned and a formatter is set. Without an agent it calls
    neither. *)
Theorem processMessageWithAI_effects
    (bot : WhatsAppBot.t) (w : World) (messageText : string) (contact : Contact.t) :
  let r := WhatsAppBot.processMessageWithAI messageText contact bot w in
  let ctx := UserContext.mk
               (match Contact.name contact with
                | Some name => if String.eqb name "" then "Usuário" else name
                | None => "Usuário"
                end)
               (Contact.number contact) (now w) in
  this' r = bot /\ world' r = w /\
  replies (effects r) = [] /\ transport_sends (effects r) = [] /\
  match WhatsAppBot.aiAgent bot with
  | None => ai_calls (effects r) = [] /\ format_calls (effects r) = []
  | Some agent =>
      ai_calls (effects r) = [(messageText, ctx)] /\
      format_calls (effects r) =
        match Agent.processMessage agent messageText ctx,
              WhatsAppBot.responseFormatter bot with
        | Returned air, Some _ => [air]
        | _, _ => []
        end
  end.
Proof.
  destruct (processMessageWithAI_run bot w messageText contact)
    as (r & evs & E & Hr & Hs & _ & _ & _ & _ & Hnone & Hsome).
  cbv zeta. rewrite E. cbn [this' world' effects].
  split; [reflexivity|]. split; [reflexivity|]. split; [exact Hr|]. split; [exact Hs|].
  destruct (WhatsAppBot.aiAgent bot) as [agent|].
  - destruct (Hsome agent eq_refl) as [Hai Hf]. split; [exact Hai|].
    unfold user_context, or_else in Hf.
    destruct (Agent.processMessage agent messageText _) as [air|v]; [|apply Hf].
    destruct (WhatsAppBot.responseFormatter bot); apply Hf.
  - destruct (Hnone eq_refl) as (_ & H1 & H2). auto.
Qed.

(** X1. Whatever the message, the bot and the outcomes of the outside calls,
    [handleMessage] changes neither the bot nor the world and does not end
    the process; its replies all go through the message it handles, there
    are at most two of them, the AI agent is called at most once and
    [client.sendMessage] never. It returns, unless a call it makes on the
    message or on the chat was rejected with [null] or [undefined]: the one
    thing it throws is the TypeError of reading [stack] of such a value, and
    it throws nothing when no call is rejected that way, whatever the agent
    and the formatter do. *)
Theorem handleMessage_contained (bot : WhatsAppBot.t) (w : World) (message : Message.t) :
  let r := WhatsAppBot.handleMessage message bot w in
  this' r = bot /\ world' r = w /\ handled message (effects r) /\
  (forall c, result r <> Exit c) /\
  (result r = Val tt \/
   exists v, nullish v = true /\ result r = Err (cannot_read v "stack")) /\
  (no_nullish_rejection message -> result r = Val tt).
Proof.
  pose proof (handleMessage_state bot w message) as (H1 & H2 & H3 & _ & H4).
  cbv zeta. split; [exact H1|]. split; [exact H2|]. split; [|split; [exact H3|]].
  2:{ split; [exact H4|]. clear.
      intros (N1 & N2 & N3 & N4).
      hm_run processMessageWithAI_run; try reflexivity.
      all: exfalso.
      all: try (pose proof (N1 _ eq_refl)); try (pose proof (N2 _ eq_refl)).
      all: repeat match goal with
                  | H : Chat.sendStateTyping _ = Thrown _ |- _ =>
                      apply (N3 _ _ eq_refl) in H
                  | H : Message.reply _ _ = Thrown _ |- _ => apply N4 in H
                  end.
      all: congruence. }
  clear. unfold handled.
  hm_run processMessageWithAI_run.
  all: read_off; rewrite ?app_nil_r.
  all: repeat split; try lia; try (repeat constructor; fail).
  all: rewrite ?length_app; cbn; unfold ai_calls in *; lia.
Qed.

(** X2. A message that the bot did not write itself gets no reply exactly
    when a call made before the first reply (a lookup, or the typing
    indicator of a text message) is rejected with [null] or [undefined]. In
    every other case it gets a first reply through the same message; a
    second one is attempted only when the first was rejected with a value
    other than [null] or [undefined], and it is the handler's error
    apology. *)
Theorem handleMessage_always_answers
    (bot : WhatsAppBot.t) (w : World) (message : Message.t) :
  Message.fromMe message = false ->
  let r := WhatsAppBot.handleMessage message bot w in
  (replies (effects r) = [] <->
   exists v, throws_before_reply message v /\ nullish v = true) /\
  (forall p rest,
     replies (effects r) = p :: rest ->
     p.1 = Message.id message /\
     (rest = [] \/
      (rest = [(Message.id message, WhatsAppBot.handler_error_apology)] /\
       exists x, Message.reply message p.2 = Thrown x /\ nullish x = false))).
Proof.
  intros Hme. cbv zeta.
  hm_run processMessageWithAI_run; try congruence.
  all: read_off.
  all: try match goal with H : String.eqb _ _ = false |- _ => apply String.eqb_neq in H end.
  all: try match goal with H : String.eqb _ _ = true |- _ => apply String.eqb_eq in H end.
  all: split;
    [ split;
      [ first [ discriminate
              | intros _; eexists; split; [|eassumption];
                unfold throws_before_reply, lookup_throws; eauto 10 ]
      | intros (v' & [[Hv|(c' & Hc & Hv)]|(Hty & c' & ch' & Hc & Hch & Hv)] & Hn);
        try reflexivity; congruence ]
    | intros p rest Hp;
      first [ discriminate Hp
            | injection Hp as <- <-; split; [reflexivity|]; cbn [snd]; eauto 10 ] ].
Qed.

(** X3. When the typing indicator of a text message cannot be sent, neither
    the AI agent nor the formatter is called and the error is printed. The
    only reply is the handler's error apology, unless the rejection is
    [null] or [undefined]: then no reply is sent and [handleMessage] throws
    a TypeError. *)
Theorem handleMessage_typing_failure
    (bot : WhatsAppBot.t) (w : World) (message : Message.t)
    (contact : Contact.t) (chat : Chat.t) (v : Exn.t) :
  Message.fromMe message = false ->
  Message.type message = "chat" ->
  Message.getContact message = Returned contact ->
  Message.getChat message = Returned chat ->
  Chat.sendStateTyping chat = Thrown v ->
  let r := WhatsAppBot.handleMessage message bot w in
  ai_calls (effects r) = [] /\
  format_calls (effects r) = [] /\
  In (ConsoleError [AStr "❌ Erro ao processar mensagem:"; AErr v]) (effects r) /\
  if nullish v
  then replies (effects r) = [] /\ result r = Err (cannot_read v "stack")
  else replies (effects r) = [(Message.id message, WhatsAppBot.handler_error_apology)] /\
       result r = Val tt.
Proof.
  intros Hme Hty Hco Hch Hst.
  assert (Hv : preparation_throws message v) by (right; eauto).
  destruct (preparation_failure bot w message v Hme Hty Hv) as (_ & H1 & H2 & H3 & H4).
  auto.
Qed.

(** X5. Once the agent has returned: without a formatter,
    [processMessageWithAI] returns the [response] text of the agent's answer
    when it has a non-empty one and the fixed formatting-error text otherwise;
    with a formatter that throws, it prints what was thrown and returns the
    fixed apology, unless the formatter threw [null] or [undefined]: then it
    throws the TypeError of its [catch] block. *)
Theorem processMessageWithAI_formatter_edges
    (bot : WhatsAppBot.t) (w : World) (messageText : string) (contact : Contact.t)
    (agent : Agent.t) (air : option AiResponse.t) :
  WhatsAppBot.aiAgent bot = Some agent ->
  Agent.processMessage agent messageText (user_context contact w) = Returned air ->
  let r := WhatsAppBot.processMessageWithAI messageText contact bot w in
  (WhatsAppBot.responseFormatter bot = None ->
   format_calls (effects r) = [] /\
   match air with
   | Some a =>
       match AiResponse.response a with
       | Some text =>
           if String.eqb text ""
           then result r = Val (Some WhatsAppBot.formatting_error)
           else result r = Val (Some text)
       | None => result r = Val (Some WhatsAppBot.formatting_error)
       end
   | None => result r = Val (Some WhatsAppBot.formatting_error)
   end) /\
  (forall f v,
     WhatsAppBot.responseFormatter bot = Some f ->
     Formatter.format f air = Thrown v ->
     In (ConsoleError [AStr "❌ Erro no processamento IA:"; AErr v]) (effects r) /\
     result r = if nullish v then Err (cannot_read v "stack")
                else Val (Some WhatsAppBot.ai_apology)).
Proof.
  intros Hagent Hair. cbv zeta. unfold user_context in Hair.
  unfold WhatsAppBot.processMessageWithAI.
  js_unfold. unfold settle, error_stack, throw, ret. js_step.
  rewrite Hagent. js_step. rewrite Hair. js_step.
  split.
  - intros ->. js_step. split; [reflexivity|].
    destruct air as [a|]; [|reflexivity]. cbn.
    destruct (AiResponse.response a) as [text|]; [|reflexivity]. cbn.
    destruct (String.eqb text ""); reflexivity.
  - intros f v -> Hf. js_step. rewrite Hf. js_step.
    destruct (nullish v); js_step; split; auto 20.
Qed.

(** ** Sending, in every state *)

(** X6. [sendMessage] always returns a boolean and changes nothing in the
    bot or the world. It calls [client.sendMessage] at most once, and does so
    exactly when the flag is up and a session object exists; it returns true
    exactly when that call was made and returned. *)
Theorem sendMessage_result
    (bot : WhatsAppBot.t) (w : World) (number message : string) :
  let r := WhatsAppBot.sendMessage number message bot w in
  (result r = Val true \/ result r = Val false) /\
  this' r = bot /\ world' r = w /\
  (length (transport_sends (effects r)) <= 1)%nat /\
  (transport_sends (effects r) <> [] <->
   WhatsAppBot.isReady bot = true /\ WhatsAppBot.client bot <> None) /\
  (result r = Val true <->
   exists c chatId u,
     transport_sends (effects r) = [(c, chatId, message)] /\
     Transport.sendMessage (web w) c chatId message = Returned u).
Proof.
  cbv zeta. unfold WhatsAppBot.sendMessage, WhatsAppBot.this_client. js_unfold. js_step.
  destruct (WhatsAppBot.isReady bot); js_step.
  2:{ split; [auto|]. split; [reflexivity|]. split; [reflexivity|]. split; [lia|].
      split; split.
      - intros H. destruct H. reflexivity.
      - intros [H _]. discriminate H.
      - discriminate.
      - intros (c & i & u & H & _). discriminate H. }
  destruct (WhatsAppBot.client bot) as [c|]; js_step.
  2:{ split; [auto|]. split; [reflexivity|]. split; [reflexivity|]. split; [lia|].
      split; split.
      - intros H. destruct H. reflexivity.
      - intros [_ H]. destruct H. reflexivity.
      - discriminate.
      - intros (c & i & u & H & _). discriminate H. }
  destruct (Transport.sendMessage (web w) c _ message) as [[]|e] eqn:E; js_step.
  - split; [auto|]. split; [reflexivity|]. split; [reflexivity|]. split; [lia|].
    split; split.
    + intros _. split; [reflexivity|discriminate].
    + discriminate.
    + intros _. do 3 eexists. split; [reflexivity|exact E].
    + reflexivity.
  - split; [auto|]. split; [reflexivity|]. split; [reflexivity|]. split; [lia|].
    split; split.
    + intros _. split; [reflexivity|discriminate].
    + discriminate.
    + discriminate.
    + intros (c' & i & u & H & Hu). injection H as <- <-. congruence.
Qed.

Lemma includes_suffix (s sub : string) : includes (s +:+ sub) sub = true.
Proof.
  apply includes_spec. exists s, "".
  assert (H : sub +:+ "" = sub).
  { induction sub as [|a sub IH]; [reflexivity|]. rewrite append_cons, IH. reflexivity. }
  rewrite H. reflexivity.
Qed.

(** The chat id is a fixed point of the normalization. *)
(** X7. The chat id that [sendMessage] hands to the library always
    contains '@c.us', and sending to that chat id again leaves it as it is:
    the suffix is never appended twice. *)
Theorem sendMessage_chat_id_normal
    (bot : WhatsAppBot.t) (w : World) (number message : string) (c : nat) :
  WhatsAppBot.isReady bot = true ->
  WhatsAppBot.client bot = Some c ->
  exists chatId,
    transport_sends (effects (WhatsAppBot.sendMessage number message bot w))
      = [(c, chatId, message)] /\
    contains chatId "@c.us" /\
    transport_sends (effects (WhatsAppBot.sendMessage chatId message bot w))
      = [(c, chatId, message)].
Proof.
  intros Hr Hc.
  assert (Hsend : forall n,
             transport_sends (effects (WhatsAppBot.sendMessage n message bot w))
             = [(c, if includes n "@c.us" then n else n +:+ "@c.us", message)]).
  { intros n. unfold WhatsAppBot.sendMessage, WhatsAppBot.this_client. js_unfold. js_step.
    rewrite Hr. js_step. rewrite Hc. js_step.
    destruct (Transport.sendMessage (web w) c _ message) as [[]|e]; reflexivity. }
  exists (if includes number "@c.us" then number else number +:+ "@c.us").
  split; [apply Hsend|].
  assert (Hin : includes (if includes number "@c.us" then number else number +:+ "@c.us")
                         "@c.us" = true).
  { destruct (includes number "@c.us") eqn:E; [exact E|apply includes_suffix]. }
  split; [apply includes_spec, Hin|].
  rewrite Hsend, Hin. reflexivity.
Qed.

(** ** Sessions, listeners and timeouts over the event loop *)

Section Sessions.
Import WhatsAppBot Lifecycle.

Lemma after_frame l b w :
  l <> CallInitialize -> same_sessions b w (after l b w).1 (after l b w).2.
Proof.
  intros Hl. unfold after, same_sessions. cbn [fst snd]. destruct l; cbn [action].
  - congruence.
  - unfold bind. destruct (sendMessage_state number message b w) as [Hb Hw].
    destruct (sendMessage number message b w) as [[] ? ? ?]; cbn in *; subst; auto.
  - unfold destroy, clearTimeout. js_unfold. js_step.
    destruct (initTimeout b) as [h|]; js_step.
    all: destruct (client b) as [c|] eqn:Ec; js_step; rewrite ?Ec; js_step;
      try (repeat split; reflexivity).
    all: destruct (Transport.destroy _ _) as [[]|]; js_step; rewrite ?Ec;
      repeat split; reflexivity.
  - cbn. auto.
  - destruct (frame_fires h b w) as (_ & _ & H & _). exact H.
  - destruct (frame_emits c ev b w) as (_ & _ & H & _). exact H.
  - cbn. auto.
  - cbn. auto.
Qed.

Lemma filter_fresh c name (ls : list (nat * string)) :
  (forall r, In r ls -> (r.1 < c)%nat) ->
  List.filter (registered c name) ls = [].
Proof.
  induction ls as [|r rest IH]; intros H; [reflexivity|]. cbn.
  unfold registered at 1.
  assert (Hr : (r.1 < c)%nat) by (apply H; left; reflexivity).
  destruct (Nat.eqb_spec r.1 c) as [E|E]; [lia|]. cbn.
  apply IH. intros r' Hin. apply H. right. exact Hin.
Qed.

Lemma tidy_initialize_call b w :
  tidy b w -> tidy (this' (initialize_call b w)) (world' (initialize_call b w)).
Proof.
  intros [T1 T2].
  destruct (initialize_call_state b w) as (_ & Hb & _ & Hl & _ & _ & Hf & _).
  split.
  - intros r. rewrite Hl, Hf. intros Hin. apply in_app_or in Hin as [Hin|Hin].
    + specialize (T1 r Hin). lia.
    + apply in_map_iff in Hin as (name & <- & _). cbn. lia.
  - rewrite Hb. cbn [client]. intros c [= <-]. rewrite Hf. split; [lia|].
    intros name Hname. rewrite Hl, List.filter_app, (filter_fresh _ _ _ T1).
    cbn [app]. unfold callback_events in *. cbn [map List.filter].
    unfold registered. cbn [fst snd]. rewrite Nat.eqb_refl. cbn [andb].
    destruct Hname as [<-|[<-|[<-|[<-|[<-|[<-|[<-|[<-|[]]]]]]]]]; reflexivity.
Qed.

Lemma tidy_after l b w : tidy b w -> tidy (after l b w).1 (after l b w).2.
Proof.
  intros T. destruct l.
  1:{ unfold after. cbn [fst snd action].
      destruct (bind_ret_state initialize_call b w) as [-> ->].
      exact (tidy_initialize_call b w T). }
  all: match goal with |- tidy (after ?l _ _).1 _ =>
         destruct (after_frame l b w ltac:(discriminate)) as (Hc & Hl & Hf) end.
  all: destruct T as [T1 T2]; split;
    [ intros r; rewrite Hl, Hf; apply T1
    | intros c0; rewrite Hc, Hl, Hf; apply T2 ].
Qed.

Lemma reachable_tidy b w : reachable b w -> tidy b w.
Proof.
  induction 1 as [agent formatter w Ht Hl | l b w _ IH He].
  - split.
    + rewrite Hl. intros r [].
    + cbn. discriminate.
  - apply tidy_after, IH.
Qed.

(** X8. In every state the bot can reach at most one timeout is pending,
    and it is the one [initTimeout] refers to: [initialize] cancels the
    timeout of an earlier call before it arms its own. *)
Theorem one_pending_timeout (b : WhatsAppBot.t) (w : World) :
  reachable b w ->
  (forall h, is_Some (timers w !! h) -> initTimeout b = Some h) /\
  (forall h1 h2, is_Some (timers w !! h1) -> is_Some (timers w !! h2) -> h1 = h2) /\
  (initTimeout b = None -> timers w = ∅).
Proof.
  intros Hr. destruct (reachable_inv b w Hr) as (_ & I2 & _).
  split; [exact I2|]. split.
  - intros h1 h2 H1 H2. apply I2 in H1, H2. congruence.
  - intros Hn. apply map_empty. intros h.
    destruct (timers w !! h) eqn:E; [|reflexivity].
    assert (initTimeout b = Some h) by (apply I2; eauto). congruence.
Qed.

(** X9. In every state the bot can reach, [destroy] leaves no timeout
    pending. It changes no field of the bot (the ready flag stays as it
    was), calls [client.destroy] exactly when a session object exists, and
    throws exactly when that call throws. *)
Theorem destroy_cancels_timeout (b : WhatsAppBot.t) (w : World) :
  reachable b w ->
  let r := destroy b w in
  timers (world' r) = ∅ /\
  this' r = b /\
  session_destroys (effects r)
    = match client b with Some c => [c] | None => [] end /\
  result r = match client b with
             | Some c => match Transport.destroy (web w) c with
                         | Returned _ => Val tt
                         | Thrown e => Err e
                         end
             | None => Val tt
             end.
Proof.
  intros Hr r. subst r. destruct (reachable_inv b w Hr) as (_ & I2 & _).
  destruct (destroy_state b w) as (Hb & Ht & _).
  split; [|split; [exact Hb|]].
  - apply map_empty. intros h. rewrite Ht.
    destruct (initTimeout b) as [h0|] eqn:E.
    + destruct (decide (h0 = h)) as [->|Hne]; [apply lookup_delete_eq|].
      rewrite lookup_delete_ne by exact Hne.
      destruct (timers w !! h) eqn:El; [|reflexivity].
      assert (Some h0 = Some h) by (apply I2; eauto). congruence.
    + destruct (timers w !! h) eqn:El; [|reflexivity].
      assert (None = Some h) by (apply I2; eauto). discriminate.
  - unfold destroy, clearTimeout. js_unfold. js_step.
    destruct (initTimeout b) as [h|]; js_step.
    all: destruct (client b) as [c|]; js_step; [|auto].
    all: destruct (Transport.destroy _ _) as [[]|]; js_step; auto.
Qed.




(** X11. In every state the bot can reach, the current session has exactly
    one listener for each of the eight events of [setupEventHandlers]:
    [client.listenerCount] returns 1, also after [initialize] was called
    several times. *)
Theorem one_listener_per_event (b : WhatsAppBot.t) (w : World) (c : nat) (name : string) :
  reachable b w ->
  client b = Some c ->
  In name callback_events ->
  result (client_listenerCount name b w) = Val 1%nat.
Proof.
  intros Hr Hc Hname. destruct (reachable_tidy b w Hr) as [_ T2].
  destruct (T2 c Hc) as [_ Hcount].
  unfold client_listenerCount, this_client. js_unfold. js_step. rewrite Hc. js_step.
  rewrite (Hcount name Hname). reflexivity.
Qed.

Lemma concat_none {A} (p : nat * string -> bool) (H : list A) ls :
  length (List.filter p ls) = 0%nat ->
  concat (map (fun r => if p r then H else []) ls) = [].
Proof.
  induction ls as [|r rest IH]; [reflexivity|]. cbn.
  destruct (p r); cbn; [discriminate|]. exact IH.
Qed.

Lemma concat_once {A} (p : nat * string -> bool) (H : list A) ls :
  length (List.filter p ls) = 1%nat ->
  concat (map (fun r => if p r then H else []) ls) = H.
Proof.
  induction ls as [|r rest IH]; [discriminate|]. cbn.
  destruct (p r); cbn.
  - intros [= Hl]. rewrite (concat_none p H rest Hl). apply app_nil_r.
  - exact IH.
Qed.

Lemma bind_val {T A B} (m : M T A) (k : A -> M T B) t w a t1 w1 evs1 :
  m t w = mkRun (Val a) t1 w1 evs1 ->
  bind m k t w = mkRun (result (k a t1 w1)) (this' (k a t1 w1)) (world' (k a t1 w1))
                       (evs1 ++ effects (k a t1 w1)).
Proof. unfold bind. intros ->. destruct (k a t1 w1); reflexivity. Qed.

Lemma listener_message_run message b w :
  listener (EvMessage message) b w
  = mkRun (Val tt) b w
          (ConsoleLog [AStr "🔔 EVENTO MESSAGE DISPARADO!"]
             :: effects (handleMessage message b w)
             ++ match result (handleMessage message b w) with
                | Err v => [Unhandled v]
                | _ => []
                end).
Proof.
  unfold listener, detached, handler. js_unfold.
  destruct (handleMessage_state b w message) as (H1 & H2 & H3 & _).
  cbn. destruct (handleMessage message b w) as [[[]|v|c] ? ? ?]; cbn in *; subst.
  - rewrite app_nil_r. reflexivity.
  - reflexivity.
  - destruct (H3 c eq_refl).
Qed.

Lemma call_listeners_message ls c message b w :
  let r := call_listeners ls c (EvMessage message) b w in
  result r = Val tt /\ this' r = b /\ world' r = w /\
  effects r =
    concat (map (fun x => if registered c "message" x
                          then effects (listener (EvMessage message) b w) else [])
                ls).
Proof.
  cbv zeta. induction ls as [|x rest IH]; [cbn; auto|].
  cbn [call_listeners map concat].
  change (event_name (EvMessage message)) with "message".
  destruct IH as (I1 & I2 & I3 & I4).
  destruct (registered c "message" x).
  - rewrite (bind_val _ _ _ _ _ _ _ _ (listener_message_run message b w)).
    rewrite listener_message_run. cbn [result this' world' effects].
    rewrite listener_message_run in I4. cbn [effects] in I4.
    rewrite I1, I2, I3, I4. auto.
  - rewrite (bind_val (ret tt) _ b w tt b w [] eq_refl).
    cbn [result this' world' effects app]. auto.
Qed.

(** X12. In every state the bot can reach, a 'message' event on the current
    session prints its console line and runs [handleMessage] exactly once on
    the message. The listener is [async]: [emit] returns whatever
    [handleMessage] does, and when [handleMessage] throws, the rejection of
    the listener's promise is handled by nobody. *)
Theorem message_event_handled_once
    (b : WhatsAppBot.t) (w : World) (c : nat) (message : Message.t) :
  reachable b w ->
  client b = Some c ->
  let r := emits c (EvMessage message) b w in
  let h := handleMessage message b w in
  result r = Val tt /\
  effects r = (ConsoleLog [AStr "🔔 EVENTO MESSAGE DISPARADO!"]
                 :: effects h
                 ++ match result h with
                    | Err v => [Unhandled v]
                    | _ => []
                    end)%list.
Proof.
  intros Hr Hc r h. subst r h. destruct (reachable_tidy b w Hr) as [_ T2].
  destruct (T2 c Hc) as [_ Hcount].
  assert (Hone : length (List.filter (registered c "message") (listeners w)) = 1%nat).
  { apply Hcount. unfold callback_events. cbn. auto 10. }
  pose proof (call_listeners_message (listeners w) c message b w) as H.
  cbv zeta in H. destruct H as (H1 & _ & _ & H4).
  rewrite (concat_once _ _ _ Hone), listener_message_run in H4. cbn [effects] in H4.
  unfold emits. js_unfold. cbn.
  destruct (call_listeners (listeners w) c (EvMessage message) b w) as [rr br wr evr].
  cbn in *. subst. split; reflexivity.
Qed.

(** X13. After a second [initialize] the callbacks of the session it
    replaced are still registered and still act on the bot: a 'ready' event
    of the old session raises the flag and cancels the timeout armed for the
    new one. *)
Theorem ready_on_replaced_session (b : WhatsAppBot.t) (w : World) (c0 : nat) :
  reachable b w ->
  client b = Some c0 ->
  let again := after CallInitialize b w in
  client again.1 = Some (fresh w) /\
  c0 <> fresh w /\
  is_Some (timers again.2 !! S (fresh w)) /\
  settled (after (Emits c0 EvReady) again.1 again.2).1
          (after (Emits c0 EvReady) again.1 again.2).2.
Proof.
  intros Hr Hc again. subst again.
  assert (Hr' : reachable (after CallInitialize b w).1 (after CallInitialize b w).2)
    by (apply reachable_step; [exact Hr|reflexivity]).
  pose proof (reachable_inv _ _ Hr') as I'.
  destruct (reachable_inv b w Hr) as (_ & _ & I3).
  destruct (reachable_tidy b w Hr) as [_ T2]. destruct (T2 c0 Hc) as [Hlt _].
  unfold after in *. cbn [fst snd action] in *.
  destruct (bind_ret_state initialize_call b w) as [E1 E2]. rewrite E1, E2 in *.
  destruct (initialize_call_state b w) as (_ & Hb & Ht & Hl & _).
  split; [rewrite Hb; reflexivity|]. split; [lia|].
  split; [rewrite Ht, lookup_insert_eq; eauto|].
  unfold emits. js_unfold. cbn.
  pose proof (call_listeners_establishes (fresh w) c0 EvReady settled
                (handler_ready_settles (fresh w))
                (listeners (world' (initialize_call b w)))
                (this' (initialize_call b w)) (world' (initialize_call b w))) as H.
  destruct (call_listeners _ _ _ _ _); cbn in *. apply H.
  - split; [exact I'|]. rewrite Hb. reflexivity.
  - right. apply registered_In. rewrite Hl. apply in_or_app. left. apply (I3 c0 Hc).
Qed.

Lemma call_listeners_disconnected_world ls c reason b w :
  world' (call_listeners ls c (EvDisconnected reason) b w) = w.
Proof.
  assert (H : post (fun _ w' => w' = w) (call_listeners ls c (EvDisconnected reason))
                   (fun _ w' => w' = w)).
  { induction ls as [|x rest IH]; [apply post_ret|].
    cbn [call_listeners].
    eapply post_bind; [|intros t w0 H; exact H|intros _; exact IH].
    intros b0 w0 ->. destruct (registered c _ x); [|reflexivity].
    apply handler_disconnected_state. }
  apply (H b w eq_refl).
Qed.

(** X14. After 'ready' and then 'disconnected' on the bot's session the
    flag is down and no timeout is pending, so no timeout can fire: only a
    new 'ready' event or a new [initialize] brings the flag back. *)
Theorem no_recovery_after_disconnect
    (b : WhatsAppBot.t) (w : World) (c : nat) (reason : string) :
  reachable b w ->
  client b = Some c ->
  let up := after (Emits c EvReady) b w in
  let down := after (Emits c (EvDisconnected reason)) up.1 up.2 in
  isReady up.1 = true /\
  isReady down.1 = false /\
  timers down.2 = ∅ /\
  forall h, enabled (TimeoutFires h) down.2 = false.
Proof.
  intros Hr Hc up down. subst up down.
  assert (Hr' : reachable (after (Emits c EvReady) b w).1 (after (Emits c EvReady) b w).2)
    by (apply reachable_step; [exact Hr|reflexivity]).
  destruct (emits_ready_settles b w c Hr Hc) as (Hup & _ & Ht).
  destruct (after_frame (Emits c EvReady) b w ltac:(discriminate)) as (Hc' & _).
  rewrite Hc in Hc'.
  split; [exact Hup|].
  split; [apply emits_disconnected_clears; assumption|].
  assert (Hw : (after (Emits c (EvDisconnected reason))
                  (after (Emits c EvReady) b w).1 (after (Emits c EvReady) b w).2).2
               = (after (Emits c EvReady) b w).2).
  { unfold after at 1. cbn [snd action]. unfold emits. js_unfold. cbn.
    pose proof (call_listeners_disconnected_world
                  (listeners (after (Emits c EvReady) b w).2) c reason
                  (after (Emits c EvReady) b w).1 (after (Emits c EvReady) b w).2) as H.
    destruct (call_listeners _ _ _ _ _); exact H. }
  rewrite Hw. split; [exact Ht|].
  intros h. cbn [enabled]. unfold due. rewrite Ht, lookup_empty. reflexivity.
Qed.

(** X15. Before a session object exists ([client] is null):
    [setupEventHandlers] throws a TypeError and registers nothing;
    [forceReady] raises the flag and then throws a TypeError, after which
    [sendMessage] still returns false without calling the library;
    [destroy] returns without calling the library. *)
Theorem methods_without_session (b : WhatsAppBot.t) (w : World) :
  client b = None ->
  (let r := setupEventHandlers b w in
   (exists e : Error.t, result r = Err e /\ Error.name e = "TypeError") /\
   registrations (effects r) = [] /\ this' r = b /\ world' r = w) /\
  (let r := forceReady b w in
   (exists e : Error.t, result r = Err e /\ Error.name e = "TypeError") /\
   isReady (this' r) = true /\ client (this' r) = None /\
   forall number message,
     result (sendMessage number message (this' r) (world' r)) = Val false /\
     transport_sends (effects (sendMessage number message (this' r) (world' r))) = []) /\
  (let r := destroy b w in
   result r = Val tt /\ session_destroys (effects r) = []).
Proof.
  intros Hc. split; [|split].
  - unfold setupEventHandlers, client_on, this_client. js_unfold. js_step.
    rewrite Hc. js_step. eauto 10.
  - unfold forceReady, client_listenerCount, this_client, set_isReady. js_unfold. js_step.
    rewrite Hc. js_step. split; [eauto|]. split; [reflexivity|]. split; [reflexivity|].
    intros number message.
    unfold sendMessage, this_client. js_unfold. js_step. auto.
  - unfold destroy, clearTimeout. js_unfold. js_step.
    destruct (initTimeout b) as [h|]; js_step; rewrite Hc; js_step; auto.
Qed.

End Sessions.

(** ** The entry point, step by step *)

Section Startup.
Import WhatsAppAISystem.

Lemma missing_listed w v :
  In v required ->
  (contains ("Variáveis obrigatórias não configuradas: "
               +:+ String.concat ", " (missing w)) v
   <-> unset w v).
Proof.
  intros Hin. rewrite <- includes_spec. unfold missing, unset, required in *.
  cbn [List.filter].
  destruct (truthy (env w !! "OPENAI_API_KEY")) eqn:E1,
           (truthy (env w !! "SUPABASE_URL")) eqn:E2,
           (truthy (env w !! "SUPABASE_KEY")) eqn:E3; cbn [negb].
  all: destruct Hin as [<-|[<-|[<-|[]]]]; rewrite ?E1, ?E2, ?E3.
  all: split; intros H; try reflexivity; try discriminate H.
  all: vm_compute in H; try discriminate H.
  all: vm_compute; reflexivity.
Qed.

(** X16. When a required variable is missing, [initialize] constructs
    nothing and calls no collaborator: it prints its two opening lines and
    the error, clears [global.systemRunning] and exits with code 1, leaving
    the system object untouched. The message of the error names a required
    variable exactly when that variable is unset or empty. *)
Theorem initialize_missing_variables
    (deps : Deps.t) (s : WhatsAppAISystem.t) (w : World) :
  (exists v, In v required /\ unset w v) ->
  let r := initialize deps s w in
  let e := new_Error ("Variáveis obrigatórias não configuradas: "
                        +:+ String.concat ", " (missing w)) in
  result r = Exit 1 /\
  this' r = s /\
  systemRunning (world' r) = false /\
  effects r =
    [ConsoleLog [AStr "🚀 Inicializando sistema WhatsApp + IA + Supabase..."];
     ConsoleLog [AStr "📋 Verificando variáveis de ambiente..."];
     ConsoleError [AStr "❌ Erro ao inicializar sistema:"; AErr e];
     ConsoleError [AStr "Stack trace:"; AStack e];
     ProcessExit 1] /\
  (forall v, In v required -> (contains (Error.message e) v <-> unset w v)).
Proof.
  intros Hm r e. subst r e. apply missing_nonempty in Hm.
  split; [|split; [|split; [|split]]].
  5:{ intros v Hv. apply missing_listed, Hv. }
  all: unfold initialize, initialize_body, set_systemRunning, process_exit, missing,
         error_stack.
  all: js_unfold; sys_step; rewrite Hm; reflexivity.
Qed.

Lemma not_fails_before_listen deps w :
  ~ fails_before_listen deps w ->
  (0 <? length (missing w))%nat = false /\
  exists f ex a,
    Deps.new_ResponseFormatter deps = Returned f /\
    Deps.new_SupabaseExecutor deps = Returned ex /\
    Deps.new_MultiAgentSystem deps ex = Returned a /\
    Executor.testConnection ex = Returned tt /\
    Transport.initialize (web w) (fresh w) = Returned tt.
Proof.
  intros H. unfold fails_before_listen in H. split.
  { destruct (0 <? length (missing w))%nat eqn:E; [|reflexivity].
    destruct H. left. apply missing_nonempty, E. }
  destruct (Deps.new_ResponseFormatter deps) as [f|e1]; [|destruct H; eauto 10].
  destruct (Deps.new_SupabaseExecutor deps) as [ex|e2]; [|destruct H; eauto 10].
  destruct (Deps.new_MultiAgentSystem deps ex) as [a|e3] eqn:E3; [|destruct H; eauto 10].
  destruct (Executor.testConnection ex) as [[]|e4] eqn:E4; [|destruct H; eauto 12].
  destruct (Transport.initialize (web w) (fresh w)) as [[]|e5]; [|destruct H; eauto 12].
  eauto 10.
Qed.

(** The state and the effects of [initialize] when nothing fails before
    [app.listen]. *)
Lemma initialize_reaches_listen deps s w f ex a :
  (0 <? length (missing w))%nat = false ->
  Deps.new_ResponseFormatter deps = Returned f ->
  Deps.new_SupabaseExecutor deps = Returned ex ->
  Deps.new_MultiAgentSystem deps ex = Returned a ->
  Executor.testConnection ex = Returned tt ->
  Transport.initialize (web w) (fresh w) = Returned tt ->
  let r := initialize deps s w in
  let bot := this' (WhatsAppBot.initialize
                      (WhatsAppBot.constructor (Some a) (Some f) w) w) in
  this' r = mk (port s) (Some bot) (Some a) (Some ex) (Some f) /\
  constructions (effects r) = ["ResponseFormatter"; "SupabaseExecutor"; "MultiAgentSystem"] /\
  listens (effects r) = [port s] /\
  result r = match Deps.app_listen deps (port s) with
             | Returned _ => Val tt
             | Thrown v => if nullish v then Err (cannot_read v "stack") else Exit 1
             end.
Proof.
  intros Hm Hf Hex Ha Ht Hi. cbv zeta. unfold missing in Hm.
  pose proof (bot_initialize_facts (WhatsAppBot.constructor (Some a) (Some f) w) w) as Hfacts.
  cbv zeta in Hfacts. rewrite Hi in Hfacts.
  unfold initialize, initialize_body, this_whatsappBot, on_field, set_responseFormatter,
    set_supabaseExecutor, set_aiAgent, set_whatsappBot, set_systemRunning, process_exit,
    error_stack.
  js_unfold. sys_step. rewrite Hm. sys_step. rewrite Hf. sys_step. rewrite Hex. sys_step.
  rewrite Ha. sys_step. rewrite Ht. sys_step.
  destruct (WhatsAppBot.initialize (WhatsAppBot.constructor (Some a) (Some f) w) w)
    as [rb b' w' evs].
  cbn [result this' world' effects] in *.
  destruct Hfacts as (-> & Hc & Hl & _). sys_step.
  destruct (Deps.app_listen deps (port s)) as [[]|v]; sys_step.
  2: destruct (nullish v); sys_step.
  all: unfold constructions, listens in *; rewrite ?omap_app, ?Hc, ?Hl; cbn; auto.
Qed.

(** [initialize] when nothing fails: the components, and the bot as its own
    [initialize] left it. *)
Lemma initialize_success deps s w :
  ~ startup_fails deps s w ->
  let r := initialize deps s w in
  exists f ex a,
    Deps.new_ResponseFormatter deps = Returned f /\
    Deps.new_SupabaseExecutor deps = Returned ex /\
    Deps.new_MultiAgentSystem deps ex = Returned a /\
    result r = Val tt /\
    this' r = mk (port s)
                 (Some (this' (WhatsAppBot.initialize
                                 (WhatsAppBot.constructor (Some a) (Some f) w) w)))
                 (Some a) (Some ex) (Some f) /\
    constructions (effects r)
      = ["ResponseFormatter"; "SupabaseExecutor"; "MultiAgentSystem"] /\
    listens (effects r) = [port s].
Proof.
  intros Hok r. subst r.
  assert (Hbefore : ~ fails_before_listen deps w).
  { intros H. apply Hok. unfold startup_fails, fails_before_listen in *.
    destruct H as [H|[H|[H|[H|[H|H]]]]]; auto 10. }
  assert (Hlisten : exists u, Deps.app_listen deps (port s) = Returned u).
  { destruct (Deps.app_listen deps (port s)) as [u|e] eqn:E; [eauto|].
    destruct Hok. unfold startup_fails. do 6 right. eauto. }
  destruct Hlisten as [u Hlisten].
  destruct (not_fails_before_listen deps w Hbefore)
    as (Hm & f & ex & a & Hf & Hex & Ha & Ht & Hi).
  destruct (initialize_reaches_listen deps s w f ex a Hm Hf Hex Ha Ht Hi)
    as (Hthis & Hc & Hl & Hres).
  rewrite Hlisten in Hres.
  exists f, ex, a. auto 10.
Qed.

(** The flag of a new bot after its [initialize] is down when neither a
    timeout nor a 'ready' event came meanwhile. *)
Lemma new_bot_not_ready agent formatter w :
  Forall (fun x => raises_flag x = false) (Transport.initializing (web w) (fresh w)) ->
  WhatsAppBot.isReady
    (this' (WhatsAppBot.initialize (WhatsAppBot.constructor agent formatter w) w)) = false.
Proof.
  intros Hquiet.
  destruct (WhatsAppBot.isReady
              (this' (WhatsAppBot.initialize
                        (WhatsAppBot.constructor agent formatter w) w))) eqn:Er;
    [|reflexivity].
  destruct (initialize_raises_flag (WhatsAppBot.constructor agent formatter w) w
              eq_refl Er) as (x & Hin & Hx).
  apply list_elem_of_In in Hin.
  pose proof (proj1 (Forall_forall _ _) Hquiet x Hin) as Hq.
  destruct Hx as [[h ->]|[c ->]]; discriminate Hq.
Qed.

(** X17. When nothing fails, [initialize] constructs the formatter, the
    executor and the agent in this order, then the bot, which holds the same
    agent and formatter as the system; it returns with all four components
    set, the bot with the session it created, and [app.listen] called once
    on the configured port. The bot is what its own [initialize] left: its
    flag is still down when neither a timeout nor a 'ready' event came while
    that call was pending. *)
Theorem initialize_builds_components
    (deps : Deps.t) (s : WhatsAppAISystem.t) (w : World) :
  ~ startup_fails deps s w ->
  let r := initialize deps s w in
  exists f ex a bot,
    Deps.new_ResponseFormatter deps = Returned f /\
    Deps.new_SupabaseExecutor deps = Returned ex /\
    Deps.new_MultiAgentSystem deps ex = Returned a /\
    result r = Val tt /\
    this' r = mk (port s) (Some bot) (Some a) (Some ex) (Some f) /\
    bot = this' (WhatsAppBot.initialize (WhatsAppBot.constructor (Some a) (Some f) w) w) /\
    WhatsAppBot.aiAgent bot = Some a /\
    WhatsAppBot.responseFormatter bot = Some f /\
    WhatsAppBot.client bot = Some (fresh w) /\
    (Forall (fun x => raises_flag x = false) (Transport.initializing (web w) (fresh w)) ->
     WhatsAppBot.isReady bot = false) /\
    constructions (effects r)
      = ["ResponseFormatter"; "SupabaseExecutor"; "MultiAgentSystem"] /\
    listens (effects r) = [port s].
Proof.
  intros Hok r. subst r.
  destruct (initialize_success deps s w Hok)
    as (f & ex & a & Hf & Hex & Ha & Hres & Hthis & Hc & Hl).
  destruct (bot_initialize_facts (WhatsAppBot.constructor (Some a) (Some f) w) w)
    as (_ & _ & _ & _ & _ & _ & Hcl & Hag & Hfo).
  exists f, ex, a,
    (this' (WhatsAppBot.initialize (WhatsAppBot.constructor (Some a) (Some f) w) w)).
  do 5 (split; [assumption|]). split; [reflexivity|].
  split; [rewrite Hag; reflexivity|]. split; [rewrite Hfo; reflexivity|].
  split; [exact Hcl|]. split; [|split; assumption].
  apply new_bot_not_ready.
Qed.

Lemma initialize_listens deps s w :
  fails_before_listen deps w ->
  listens (effects (initialize deps s w)) = [].
Proof.
  intros H.
  unfold initialize, initialize_body, this_whatsappBot, on_field, set_responseFormatter,
    set_supabaseExecutor, set_aiAgent, set_whatsappBot, set_systemRunning, process_exit,
    error_stack.
  js_unfold. sys_step.
  destruct (0 <? _)%nat eqn:Em; sys_step; [reflexivity|].
  assert (Hm : ~ exists v, In v required /\ unset w v).
  { intros H'. apply missing_nonempty in H'. congruence. }
  destruct (Deps.new_ResponseFormatter deps) as [f|e1] eqn:E1; sys_step;
    [|destruct (nullish e1); reflexivity].
  destruct (Deps.new_SupabaseExecutor deps) as [ex|e2] eqn:E2; sys_step;
    [|destruct (nullish e2); reflexivity].
  destruct (Deps.new_MultiAgentSystem deps ex) as [a|e3] eqn:E3; sys_step;
    [|destruct (nullish e3); reflexivity].
  destruct (Executor.testConnection ex) as [[]|e4] eqn:E4; sys_step;
    [|destruct (nullish e4); reflexivity].
  match goal with |- context [WhatsAppBot.initialize ?b ?w0] =>
    pose proof (bot_initialize_facts b w0) as Hfacts;
    destruct (WhatsAppBot.initialize b w0) as [rb b' w' evs] end.
  cbv zeta in Hfacts. cbn [result this' world' effects] in *.
  destruct Hfacts as (-> & _ & Hl & _).
  destruct (Transport.initialize (web w) (fresh w)) as [[]|e5] eqn:E5; sys_step.
  2:{ destruct (nullish e5); sys_step; unfold listens in *;
        rewrite ?omap_app, Hl; reflexivity. }
  exfalso. unfold fails_before_listen in H.
  destruct H as [H|[[e H]|[[e H]|[(ex' & e & H1 & H2)|[(ex' & e & H1 & H2)|[e H]]]]]].
  - exact (Hm H).
  - congruence.
  - congruence.
  - rewrite E2 in H1. injection H1 as <-. congruence.
  - rewrite E2 in H1. injection H1 as <-. congruence.
  - congruence.
Qed.

(** X18. [app.listen] is called only when everything before it went
    through: if a variable is missing or a constructor, the connectivity test
    or the bot's [initialize] throws, the server is never asked to listen and
    [initialize] does not return: the process exits with code 1, or, when
    what was thrown is [null] or [undefined], [initialize] throws the
    TypeError of its [catch] block. Otherwise the server is asked once, on
    the configured port. *)
Theorem listen_only_after_startup
    (deps : Deps.t) (s : WhatsAppAISystem.t) (w : World) :
  let r := initialize deps s w in
  (fails_before_listen deps w ->
   listens (effects r) = [] /\
   (result r = Exit 1 \/
    exists v, nullish v = true /\ result r = Err (cannot_read v "stack"))) /\
  (~ fails_before_listen deps w -> listens (effects r) = [port s]).
Proof.
  cbv zeta. split.
  - intros H. split; [apply initialize_listens, H|].
    assert (Hs : startup_fails deps s w).
    { unfold startup_fails, fails_before_listen in *.
      destruct H as [H|[H|[H|[H|[H|H]]]]]; auto 10. }
    apply startup_fails_iff in Hs as [e He].
    pose proof (initialize_result deps s w) as (_ & Hi). cbv zeta in Hi.
    rewrite He in Hi. destruct (nullish e) eqn:En.
    + right. exists e. split; [exact En|apply Hi].
    + left. apply Hi.
  - intros H. destruct (not_fails_before_listen deps w H)
      as (Hm & f & ex & a & Hf & Hex & Ha & Ht & Hi).
    apply (initialize_reaches_listen deps s w f ex a Hm Hf Hex Ha Ht Hi).
Qed.

(** X19. [shutdown] ends with [process.exit(0)] as its last effect. It calls
    [client.destroy] exactly when a bot with a session exists. When that call
    throws, the error is printed and [global.systemRunning] is left as it
    was; in every other case the flag is cleared. *)
Theorem shutdown_effects (s : WhatsAppAISystem.t) (w : World) :
  let r := shutdown s w in
  result r = Exit 0 /\
  last (effects r) = Some (ProcessExit 0) /\
  session_destroys (effects r)
    = match whatsappBot s with
      | Some b => match WhatsAppBot.client b with Some c => [c] | None => [] end
      | None => []
      end /\
  match whatsappBot s with
  | Some b =>
      match WhatsAppBot.client b with
      | Some c =>
          match Transport.destroy (web w) c with
          | Returned _ => systemRunning (world' r) = false
          | Thrown e =>
              systemRunning (world' r) = systemRunning w /\
              In (ConsoleError [AStr "❌ Erro ao encerrar sistema:"; AErr e]) (effects r)
          end
      | None => systemRunning (world' r) = false
      end
  | None => systemRunning (world' r) = false
  end.
Proof.
  cbv zeta. split; [apply shutdown_result|].
  unfold shutdown, this_whatsappBot, on_field, set_systemRunning, process_exit.
  js_unfold. sys_step.
  destruct (whatsappBot s) as [b|] eqn:Eb; sys_step; [|auto].
  rewrite ?Eb. sys_step.
  unfold WhatsAppBot.destroy, clearTimeout. js_unfold. cbn.
  destruct (WhatsAppBot.initTimeout b) as [h|]; cbn.
  all: destruct (WhatsAppBot.client b) as [c|]; cbn; [|auto].
  all: destruct (Transport.destroy (web w) c) as [[]|e]; cbn; auto 20.
Qed.




(** What [initialize] leaves of [global.systemRunning]. *)
Lemma initialize_flag deps s w :
  match result (initialize deps s w) with
  | Exit code => code = 1 /\ systemRunning (world' (initialize deps s w)) = false
  | _ => systemRunning (world' (initialize deps s w)) = systemRunning w
  end.
Proof.
  pose proof (initialize_result deps s w) as (_ & Hi). cbv zeta in Hi.
  destruct (initialize_body_facts deps s w) as [_ Hrun].
  destruct (result (initialize_body deps s w)) as [[]|e|c] eqn:Eb.
  - destruct Hi as (-> & -> & _). exact Hrun.
  - destruct (nullish e).
    + destruct Hi as (-> & -> & _). exact Hrun.
    + destruct Hi as (-> & Hf & _). auto.
  - destruct Hi.
Qed.

(** X21. Loading the entry point in a process where [global.systemRunning]
    is not set either returns with the flag set, so that every later load in
    the same process exits with code 0, or exits with code 1 with the flag
    cleared. *)
Theorem main_sets_running_flag (deps : Deps.t) (s : WhatsAppAISystem.t) (w : World) :
  systemRunning w = false ->
  let r := main deps s w in
  (result r = Val tt /\ systemRunning (world' r) = true /\
   forall deps' s', result (main deps' s' (world' r)) = Exit 0) \/
  (result r = Exit 1 /\ systemRunning (world' r) = false).
Proof.
  intros H r. subst r. destruct (main_run deps s w H) as (Hr & Hw & _).
  pose proof (initialize_flag deps (constructed deps w) (loaded deps w)) as Hi.
  rewrite Hr, Hw.
  destruct (result (initialize deps (constructed deps w) (loaded deps w))) as [[]|e|c].
  - left. split; [reflexivity|]. split; [rewrite Hi; reflexivity|].
    intros deps' s'. apply main_guard. rewrite Hi. reflexivity.
  - left. split; [reflexivity|]. split; [rewrite Hi; reflexivity|].
    intros deps' s'. apply main_guard. rewrite Hi. reflexivity.
  - right. destruct Hi as [-> Hf]. auto.
Qed.


End Startup.

(** ** The further properties at concrete inputs *)

Lemma handleMessage_always_answers_witness :
  Message.fromMe Scenario.hi = false /\
  replies (effects (WhatsAppBot.handleMessage Scenario.hi Scenario.bot0 Scenario.world0))
    <> [] /\
  Message.fromMe Scenario.hi_typing_undefined = false /\
  throws_before_reply Scenario.hi_typing_undefined Exn.Undefined /\
  replies (effects (WhatsAppBot.handleMessage Scenario.hi_typing_undefined Scenario.bot0
                      Scenario.world0)) = [].
Proof.
  split; [reflexivity|].
  destruct (handleMessage_always_answers Scenario.bot0 Scenario.world0 Scenario.hi eq_refl)
    as (Hnone & _).
  destruct (handleMessage_always_answers Scenario.bot0 Scenario.world0
              Scenario.hi_typing_undefined eq_refl) as (Hnone' & _).
  assert (Hthrows : throws_before_reply Scenario.hi_typing_undefined Exn.Undefined).
  { right. split; [reflexivity|].
    exists Scenario.alice, Scenario.typing_undefined. repeat split; reflexivity. }
  split.
  { intros H. apply Hnone in H as (v & [[Hv|(c & _ & Hv)]|(_ & c & ch & Hc & Hch & Hv)] & _).
    - discriminate Hv.
    - discriminate Hv.
    - injection Hch as <-. discriminate Hv. }
  split; [reflexivity|]. split; [exact Hthrows|].
  apply Hnone'. exists Exn.Undefined. split; [exact Hthrows|reflexivity].
Defined.

Lemma handleMessage_typing_failure_witness :
  Message.fromMe Scenario.hi_typing_fails = false /\
  Message.type Scenario.hi_typing_fails = "chat" /\
  Chat.sendStateTyping Scenario.typing_fails = Thrown (new_Error "Protocol error") /\
  ai_calls (effects (WhatsAppBot.handleMessage Scenario.hi_typing_fails Scenario.bot0
                       Scenario.world0)) = [] /\
  replies (effects (WhatsAppBot.handleMessage Scenario.hi_typing_fails Scenario.bot0
                      Scenario.world0))
    = [(7%nat, WhatsAppBot.handler_error_apology)] /\
  Chat.sendStateTyping Scenario.typing_undefined = Thrown Exn.Undefined /\
  replies (effects (WhatsAppBot.handleMessage Scenario.hi_typing_undefined Scenario.bot0
                      Scenario.world0)) = [] /\
  result (WhatsAppBot.handleMessage Scenario.hi_typing_undefined Scenario.bot0
            Scenario.world0) = Err (cannot_read Exn.Undefined "stack").
Proof.
  split; [reflexivity|]. split; [reflexivity|]. split; [reflexivity|].
  destruct (handleMessage_typing_failure
              Scenario.bot0 Scenario.world0 Scenario.hi_typing_fails
              Scenario.alice Scenario.typing_fails (new_Error "Protocol error")
              eq_refl eq_refl eq_refl eq_refl eq_refl) as (Ha & _ & _ & Hr & _).
  destruct (handleMessage_typing_failure
              Scenario.bot0 Scenario.world0 Scenario.hi_typing_undefined
              Scenario.alice Scenario.typing_undefined Exn.Undefined
              eq_refl eq_refl eq_refl eq_refl eq_refl) as (_ & _ & _ & Hr' & Hres').
  split; [exact Ha|]. split; [exact Hr|]. split; [reflexivity|].
  split; [exact Hr'|exact Hres'].
Defined.

Lemma processMessageWithAI_formatter_edges_witness :
  result (WhatsAppBot.processMessageWithAI "Hi" Scenario.alice
            Scenario.bot_without_formatter Scenario.world0) = Val (Some "Hello!") /\
  result (WhatsAppBot.processMessageWithAI "Hi" Scenario.alice
            Scenario.bot_failing_formatter Scenario.world0)
    = Val (Some WhatsAppBot.ai_apology) /\
  result (WhatsAppBot.processMessageWithAI "Hi" Scenario.alice
            Scenario.bot_formatter_null Scenario.world0)
    = Err (cannot_read Exn.Null "stack").
Proof.
  split; [|split].
  - exact (proj2 (proj1 (processMessageWithAI_formatter_edges
                           Scenario.bot_without_formatter Scenario.world0 "Hi"
                           Scenario.alice Scenario.hello_agent
                           (Some (AiResponse.mk (Some "Hello!") []))
                           eq_refl eq_refl) eq_refl)).
  - exact (proj2 (proj2 (processMessageWithAI_formatter_edges
                           Scenario.bot_failing_formatter Scenario.world0 "Hi"
                           Scenario.alice Scenario.hello_agent
                           (Some (AiResponse.mk (Some "Hello!") []))
                           eq_refl eq_refl)
                        Scenario.failing_formatter
                        (new_Error "Cannot read properties of undefined")
                        eq_refl eq_refl)).
  - exact (proj2 (proj2 (processMessageWithAI_formatter_edges
                           Scenario.bot_formatter_null Scenario.world0 "Hi"
                           Scenario.alice Scenario.hello_agent
                           (Some (AiResponse.mk (Some "Hello!") []))
                           eq_refl eq_refl)
                        Scenario.formatter_null Exn.Null eq_refl eq_refl)).
Defined.

Lemma sendMessage_chat_id_normal_witness :
  WhatsAppBot.isReady Scenario.ready.1 = true /\
  WhatsAppBot.client Scenario.ready.1 = Some 0%nat /\
  exists chatId,
    transport_sends (effects (WhatsAppBot.sendMessage "5511999990000" "Oi"
                                Scenario.ready.1 Scenario.ready.2))
      = [(0%nat, chatId, "Oi")] /\
    transport_sends (effects (WhatsAppBot.sendMessage chatId "Oi"
                                Scenario.ready.1 Scenario.ready.2))
      = [(0%nat, chatId, "Oi")].
Proof.
  split; [reflexivity|]. split; [reflexivity|].
  destruct (sendMessage_chat_id_normal Scenario.ready.1 Scenario.ready.2
              "5511999990000" "Oi" 0%nat eq_refl eq_refl) as (chatId & H1 & _ & H2).
  exists chatId. split; [exact H1|exact H2].
Defined.

Lemma reachable_started : Lifecycle.reachable Scenario.started.1 Scenario.started.2.
Proof.
  apply (Lifecycle.reachable_step Lifecycle.CallInitialize); [|reflexivity].
  apply Lifecycle.reachable_new; reflexivity.
Defined.

Lemma reachable_restarted : Lifecycle.reachable Scenario.restarted.1 Scenario.restarted.2.
Proof.
  apply (Lifecycle.reachable_step Lifecycle.CallInitialize); [|reflexivity].
  exact reachable_started.
Defined.

Lemma reachable_ready : Lifecycle.reachable Scenario.ready.1 Scenario.ready.2.
Proof.
  apply (Lifecycle.reachable_step (Lifecycle.Emits 0 EvReady)); [|reflexivity].
  exact reachable_started.
Defined.

Lemma one_pending_timeout_witness :
  Lifecycle.reachable Scenario.restarted.1 Scenario.restarted.2 /\
  is_Some (timers Scenario.restarted.2 !! 3%nat) /\
  WhatsAppBot.initTimeout Scenario.restarted.1 = Some 3%nat /\
  (forall h, is_Some (timers Scenario.restarted.2 !! h) -> 3%nat = h).
Proof.
  split; [exact reachable_restarted|].
  assert (Hp : is_Some (timers Scenario.restarted.2 !! 3%nat)).
  { exists 46000. reflexivity. }
  destruct (one_pending_timeout Scenario.restarted.1 Scenario.restarted.2
              reachable_restarted) as (H1 & H2 & _).
  split; [exact Hp|]. split; [exact (H1 3%nat Hp)|].
  intros h Hh. exact (H2 3%nat h Hp Hh).
Defined.

Lemma destroy_cancels_timeout_witness :
  Lifecycle.reachable Scenario.started.1 Scenario.started.2 /\
  timers (world' (WhatsAppBot.destroy Scenario.started.1 Scenario.started.2)) = ∅ /\
  session_destroys (effects (WhatsAppBot.destroy Scenario.started.1 Scenario.started.2))
    = [0%nat].
Proof.
  split; [exact reachable_started|].
  destruct (destroy_cancels_timeout Scenario.started.1 Scenario.started.2
              reachable_started) as (H1 & _ & H3 & _).
  split; [exact H1|exact H3].
Defined.


Lemma one_listener_per_event_witness :
  Lifecycle.reachable Scenario.restarted.1 Scenario.restarted.2 /\
  WhatsAppBot.client Scenario.restarted.1 = Some 2%nat /\
  In "message" callback_events /\
  result (WhatsAppBot.client_listenerCount "message" Scenario.restarted.1
            Scenario.restarted.2) = Val 1%nat.
Proof.
  assert (Hin : In "message" callback_events) by (unfold callback_events; cbn; auto 10).
  split; [exact reachable_restarted|]. split; [reflexivity|]. split; [exact Hin|].
  exact (one_listener_per_event Scenario.restarted.1 Scenario.restarted.2 2%nat "message"
           reachable_restarted eq_refl Hin).
Defined.

Lemma message_event_handled_once_witness :
  Lifecycle.reachable Scenario.ready.1 Scenario.ready.2 /\
  WhatsAppBot.client Scenario.ready.1 = Some 0%nat /\
  replies (effects (WhatsAppBot.emits 0 (EvMessage Scenario.hi)
                      Scenario.ready.1 Scenario.ready.2))
    = [(7%nat, "Hello!")] /\
  result (WhatsAppBot.emits 0 (EvMessage Scenario.hi_lookup_null)
            Scenario.ready.1 Scenario.ready.2) = Val tt /\
  last (effects (WhatsAppBot.emits 0 (EvMessage Scenario.hi_lookup_null)
                   Scenario.ready.1 Scenario.ready.2))
    = Some (Unhandled (cannot_read Exn.Null "stack")).
Proof.
  split; [exact reachable_ready|]. split; [reflexivity|].
  destruct (message_event_handled_once Scenario.ready.1 Scenario.ready.2 0%nat Scenario.hi
              reachable_ready eq_refl) as (_ & H).
  destruct (message_event_handled_once Scenario.ready.1 Scenario.ready.2 0%nat
              Scenario.hi_lookup_null reachable_ready eq_refl) as (Hres & H').
  split; [rewrite H; reflexivity|]. split; [exact Hres|].
  rewrite H'. reflexivity.
Defined.

Lemma ready_on_replaced_session_witness :
  Lifecycle.reachable Scenario.started.1 Scenario.started.2 /\
  WhatsAppBot.client Scenario.started.1 = Some 0%nat /\
  WhatsAppBot.client Scenario.restarted.1 = Some 2%nat /\
  settled (Lifecycle.after (Lifecycle.Emits 0 EvReady)
             Scenario.restarted.1 Scenario.restarted.2).1
          (Lifecycle.after (Lifecycle.Emits 0 EvReady)
             Scenario.restarted.1 Scenario.restarted.2).2.
Proof.
  split; [exact reachable_started|]. split; [reflexivity|].
  destruct (ready_on_replaced_session Scenario.started.1 Scenario.started.2 0%nat
              reachable_started eq_refl) as (Hc & _ & _ & Hs).
  split; [exact Hc|exact Hs].
Defined.

Lemma no_recovery_after_disconnect_witness :
  Lifecycle.reachable Scenario.started.1 Scenario.started.2 /\
  WhatsAppBot.client Scenario.started.1 = Some 0%nat /\
  WhatsAppBot.isReady
    (Lifecycle.after (Lifecycle.Emits 0 (EvDisconnected "LOGOUT"))
       Scenario.ready.1 Scenario.ready.2).1 = false /\
  Lifecycle.enabled (Lifecycle.TimeoutFires 1)
    (Lifecycle.after (Lifecycle.Emits 0 (EvDisconnected "LOGOUT"))
       Scenario.ready.1 Scenario.ready.2).2 = false.
Proof.
  split; [exact reachable_started|]. split; [reflexivity|].
  destruct (no_recovery_after_disconnect Scenario.started.1 Scenario.started.2 0%nat
              "LOGOUT" reachable_started eq_refl) as (_ & Hdown & _ & Hnone).
  split; [exact Hdown|exact (Hnone 1%nat)].
Defined.

Lemma methods_without_session_witness :
  WhatsAppBot.client Scenario.bot0 = None /\
  registrations (effects (WhatsAppBot.setupEventHandlers Scenario.bot0 Scenario.world0))
    = [] /\
  WhatsAppBot.isReady (this' (WhatsAppBot.forceReady Scenario.bot0 Scenario.world0))
    = true /\
  result (WhatsAppBot.destroy Scenario.bot0 Scenario.world0) = Val tt.
Proof.
  split; [reflexivity|].
  destruct (methods_without_session Scenario.bot0 Scenario.world0 eq_refl)
    as ((_ & H1 & _) & (_ & H2 & _) & (H3 & _)).
  split; [exact H1|]. split; [exact H2|exact H3].
Defined.

Lemma initialize_missing_variables_witness :
  (exists v, In v WhatsAppAISystem.required /\ unset Scenario.world_without_key v) /\
  result (WhatsAppAISystem.initialize Scenario.deps0 Scenario.system0
            Scenario.world_without_key) = Exit 1 /\
  constructions (effects (WhatsAppAISystem.initialize Scenario.deps0 Scenario.system0
                            Scenario.world_without_key)) = [] /\
  ~ contains ("Variáveis obrigatórias não configuradas: "
                +:+ String.concat ", " (missing Scenario.world_without_key))
             "SUPABASE_URL".
Proof.
  assert (Hm : exists v, In v WhatsAppAISystem.required /\
                         unset Scenario.world_without_key v).
  { exists "SUPABASE_KEY". split; [unfold WhatsAppAISystem.required; cbn; auto|reflexivity]. }
  split; [exact Hm|].
  destruct (initialize_missing_variables Scenario.deps0 Scenario.system0
              Scenario.world_without_key Hm) as (Hres & _ & _ & Heff & Hlist).
  split; [exact Hres|]. split; [rewrite Heff; reflexivity|].
  intros H. apply (Hlist "SUPABASE_URL") in H.
  - discriminate H.
  - unfold WhatsAppAISystem.required. cbn. auto.
Defined.

Lemma startup_succeeds :
  ~ startup_fails Scenario.deps0 Scenario.system0 Scenario.world_with_keys.
Proof.
  intros [(v & Hin & Hv)|[[e H]|[[e H]|[(ex & e & H1 & H2)|[(ex & e & H1 & H2)|
          [[e H]|[e H]]]]]]]; try discriminate.
  - destruct Hin as [<-|[<-|[<-|[]]]]; vm_compute in Hv; discriminate.
  - injection H1 as <-. discriminate.
Defined.

Lemma initialize_builds_components_witness :
  ~ startup_fails Scenario.deps0 Scenario.system0 Scenario.world_with_keys /\
  constructions (effects (WhatsAppAISystem.initialize Scenario.deps0 Scenario.system0
                            Scenario.world_with_keys))
    = ["ResponseFormatter"; "SupabaseExecutor"; "MultiAgentSystem"] /\
  listens (effects (WhatsAppAISystem.initialize Scenario.deps0 Scenario.system0
                      Scenario.world_with_keys)) = ["8080"].
Proof.
  split; [exact startup_succeeds|].
  destruct (initialize_builds_components Scenario.deps0 Scenario.system0
              Scenario.world_with_keys startup_succeeds)
    as (f & ex & a & bot & _ & _ & _ & _ & _ & _ & _ & _ & _ & _ & Hc & Hl).
  split; [exact Hc|exact Hl].
Defined.



Lemma main_sets_running_flag_witness :
  systemRunning Scenario.world_fresh = false /\
  result (WhatsAppAISystem.main Scenario.deps0 Scenario.system0 Scenario.world_fresh)
    = Exit 1 /\
  systemRunning (world' (WhatsAppAISystem.main Scenario.deps0 Scenario.system0
                           Scenario.world_fresh)) = false /\
  systemRunning Scenario.world_fresh_with_keys = false /\
  result (WhatsAppAISystem.main Scenario.deps0 Scenario.system0
            Scenario.world_fresh_with_keys) = Val tt /\
  systemRunning (world' (WhatsAppAISystem.main Scenario.deps0 Scenario.system0
                           Scenario.world_fresh_with_keys)) = true.
Proof.
  split; [reflexivity|].
  destruct (main_sets_running_flag Scenario.deps0 Scenario.system0 Scenario.world_fresh
              eq_refl) as [(H1 & _)|(H1 & H2)].
  { vm_compute in H1. discriminate H1. }
  split; [exact H1|]. split; [exact H2|]. split; [reflexivity|].
  destruct (main_sets_running_flag Scenario.deps0 Scenario.system0
              Scenario.world_fresh_with_keys eq_refl) as [(H3 & H4 & _)|(H3 & _)].
  - split; [exact H3|exact H4].
  - vm_compute in H3. discriminate H3.
Defined.


